(** * OpusFilter, [opusfilter/classifier.py]: the threshold search of
    [TrainClassifier]

    A shallow embedding of the label assigner ([add_labels]), the cutoff
    estimator ([set_cutoffs]), the model-selection criteria ([get_roc_auc],
    [get_sse], [get_aic], [get_bic]) and the greedy search
    ([find_best_model]).

    Conventions of the embedding.
    - A Python float is idealised as an exact rational ([Q]); [==] on floats
      is [Qeq_bool], [round(x, 2)] is rounding to the nearest hundredth
      (ties to even).  The discard fractions are the only floats whose
      values the search inspects: for a default estimate with at most two
      decimals the rounded entries of the program are the floats nearest
      to the hundredths computed here, and the statements about the values
      of rounded entries are made for such defaults, up to [==] on [Q].
      Criterion values (AUC, AIC, BIC) live in an abstract float type [V]
      that carries the logarithm.
    - A Python [dict] is an association list in insertion order.
    - A pandas [DataFrame] is a row count and an ordered dictionary of
      columns.
    - Exceptions are values of [error]; a computation that may raise returns
      a [result].
    - pandas and scikit-learn are not part of the repository: their
      operations are the fields of the class [Services]; the float
      operations on criterion values are the fields of [FloatOps]. *)

From Stdlib Require Import List String Ascii Bool ZArith QArith Qround Lia Lqa.
From Stdlib Require Import Reals Lra.
Import ListNotations.

Local Open Scope string_scope.
Local Open Scope list_scope.
Local Open Scope Z_scope.

(** ** Exceptions and the error monad *)

Inductive error : Type :=
| AttributeError
| KeyError
| TypeError
| UnboundLocalError
| ValueError.

Inductive result (A : Type) : Type :=
| Ok (a : A)
| Err (e : error).

Arguments Ok {A} a.
Arguments Err {A} e.

Definition bind {A B : Type} (m : result A) (k : A -> result B) : result B :=
  match m with
  | Ok a => k a
  | Err e => Err e
  end.

Notation "x <- m ;; k" := (bind m (fun x => k))
  (at level 61, m at next level, right associativity).
Notation "' p <- m ;; k" := (bind m (fun p => k))
  (at level 61, p pattern, m at next level, right associativity).

(** Reading a name that may be unbound (a missing attribute, an unassigned
    local): [None] raises [e]. *)
Definition bound {A : Type} (e : error) (o : option A) : result A :=
  match o with
  | Some a => Ok a
  | None => Err e
  end.

(** ** Python dictionaries, in insertion order *)

Definition dict (A : Type) : Type := list (string * A).

Section Dict.
Context {A : Type}.

(** [d[k]], [None] standing for [KeyError]. *)
Fixpoint dget (d : dict A) (k : string) : option A :=
  match d with
  | [] => None
  | (k', v) :: d' => if String.eqb k k' then Some v else dget d' k
  end.

(** [d[k] = v]: an existing key keeps its position. *)
Fixpoint dset (d : dict A) (k : string) (v : A) : dict A :=
  match d with
  | [] => [(k, v)]
  | (k', v') :: d' =>
      if String.eqb k k' then (k', v) :: d' else (k', v') :: dset d' k v
  end.

(** [d.pop(k)]: the value and the dictionary without the key. *)
Fixpoint dpop (d : dict A) (k : string) : option (A * dict A) :=
  match d with
  | [] => None
  | (k', v) :: d' =>
      if String.eqb k k' then Some (v, d')
      else match dpop d' k with
           | Some (x, d'') => Some (x, (k', v) :: d'')
           | None => None
           end
  end.

(** [d.keys()]. *)
Definition dkeys (d : dict A) : list string := map fst d.

(** [{key: v for key in ks}]. *)
Definition dict_fromkeys (ks : list string) (v : A) : dict A :=
  fold_left (fun d k => dset d k v) ks [].
End Dict.

(** The list of keys after a [pop]. *)
Fixpoint remove_key (k : string) (ks : list string) : list string :=
  match ks with
  | [] => []
  | k' :: ks' => if String.eqb k k' then ks' else k' :: remove_key k ks'
  end.

(** ** Tables *)

(** A [pandas.Series] of scores and a [DataFrame]: [index_len] rows, and the
    columns in their order. *)
Definition Series : Type := list Q.

Record DataFrame : Type := {
  index_len : nat;
  columns : dict Series
}.

(** [df.keys()] *)
Definition df_keys (df : DataFrame) : list string := dkeys (columns df).

(** [df[key]] *)
Definition df_getitem (df : DataFrame) (key : string) : result Series :=
  bound KeyError (dget (columns df) key).

(** [series[i]] on the default integer index. *)
Definition series_getitem (s : Series) (i : nat) : result Q :=
  bound KeyError (nth_error s i).

(** [df.pop(key)]: the column, and the table without it. *)
Definition df_pop (df : DataFrame) (key : string) : result (Series * DataFrame) :=
  match dpop (columns df) key with
  | Some (s, cols) => Ok (s, {| index_len := index_len df; columns := cols |})
  | None => Err KeyError
  end.

(** [df.shape] *)
Definition shape0 (df : DataFrame) : Z := Z.of_nat (index_len df).
Definition shape1 (df : DataFrame) : Z := Z.of_nat (List.length (columns df)).

(** ** Direction policy *)

(** [needle in hay] on Python strings. *)
Fixpoint contains (needle hay : string) : bool :=
  String.prefix needle hay ||
  match hay with
  | EmptyString => false
  | String _ hay' => contains needle hay'
  end.

(** The claim's wording: [needle] occurs somewhere inside [hay]. *)
Definition is_substring (needle hay : string) : Prop :=
  exists pre post, hay = (pre ++ needle ++ post)%string.

(** ['CrossEntropyFilter' in key or 'WordAlign' in key]: a high score
    rejects the pair. *)
Definition high_reject (key : string) : bool :=
  contains "CrossEntropyFilter" key || contains "WordAlign" key.

(** ** Floats as rationals *)

(** [x < y] on floats. *)
Definition Qltb (x y : Q) : bool := negb (Qle_bool y x).

(** Nearest integer, ties to the even neighbour. *)
Definition round_half_even (q : Q) : Z :=
  let f := Qfloor q in
  match Qcompare (q - inject_Z f)%Q (1 # 2)%Q with
  | Lt => f
  | Gt => f + 1
  | Eq => if Z.even f then f else f + 1
  end.

(** [round(x, 2)] on the exact value.  The program rounds the binary
    float it has accumulated; the two agree whenever the exact value is
    not within float error of a tie between two neighbouring hundredths,
    in particular for every default estimate with at most two decimals. *)
Definition round2 (x : Q) : Q := Qmake (round_half_even (x * 100)) 100.

(** ** External services and the classifier wrapper *)

(** Float arithmetic on criterion values: [V] is the type of the AUC, AIC
    and BIC numbers, with the comparison, the arithmetic and the natural
    logarithm of [math]. *)
Class FloatOps (V : Type) : Type := {
  Vltb : V -> V -> bool;
  Vadd : V -> V -> V;
  Vsub : V -> V -> V;
  Vmul : V -> V -> V;
  V_of_Z : Z -> V;
  V_of_Q : Q -> V;
  Vln : V -> V
}.

(** What pandas and scikit-learn provide.  [SkModel] is a fitted
    [sklearn.linear_model] estimator. *)
Class Services (SkModel V : Type) : Type := {
  (** [Series.quantile(q)] *)
  quantile : Series -> Q -> result Q;
  (** [estimator.fit(X, y)] on a freshly constructed estimator *)
  fit : DataFrame -> list Z -> result SkModel;
  (** [estimator.predict(X)] *)
  predict : SkModel -> DataFrame -> result (list Z);
  (** [estimator.predict_proba(X)]: one row [(p0, p1)] per sample *)
  predict_proba : SkModel -> DataFrame -> result (list (Q * Q));
  (** [estimator.score(X, y)] *)
  score : SkModel -> DataFrame -> Series -> result Q;
  (** [sklearn.metrics.roc_auc_score(y_true, y_score)] *)
  roc_auc_score : Series -> list Q -> result V
}.

(** [Classifier]: the estimator with its class name and feature list. *)
Record Classifier (SkModel : Type) : Type := {
  classname : string;
  classifier : SkModel;
  features : list string
}.

Arguments classname {SkModel} c.
Arguments classifier {SkModel} c.
Arguments features {SkModel} c.

(** [TrainClassifier]: the attributes of [self].  [dev_data] and
    [dev_labels] exist only when a dev-scores file was given,
    [labels_train] only once [add_labels] has run. *)
Record TrainClassifier : Type := {
  df_training_data : DataFrame;
  discard_estimate : Q;
  dev_data : option DataFrame;
  dev_labels : option Series;
  labels_train : option (list Z)
}.

(** [TrainClassifier.__init__] on the tables [load_dataframe] returned for
    the two files ([None] when [dev_scores] is not given). *)
Definition init (training_scores : DataFrame) (dev_scores : option DataFrame)
    (discard_est : option Q) : result TrainClassifier :=
  let de := match discard_est with
            | None => 1 # 10
            | Some d => d
            end in
  match dev_scores with
  | Some dev =>
      '(lab, dev') <- df_pop dev "label" ;;
      Ok {| df_training_data := training_scores;
            discard_estimate := de;
            dev_data := Some dev';
            dev_labels := Some lab;
            labels_train := None |}
  | None =>
      Ok {| df_training_data := training_scores;
            discard_estimate := de;
            dev_data := None;
            dev_labels := None;
            labels_train := None |}
  end.

Definition set_labels_train (self : TrainClassifier) (l : list Z) : TrainClassifier :=
  {| df_training_data := df_training_data self;
     discard_estimate := discard_estimate self;
     dev_data := dev_data self;
     dev_labels := dev_labels self;
     labels_train := Some l |}.

Definition set_tables (self : TrainClassifier) (train : DataFrame)
    (dev : option DataFrame) : TrainClassifier :=
  {| df_training_data := train;
     discard_estimate := discard_estimate self;
     dev_data := dev;
     dev_labels := dev_labels self;
     labels_train := labels_train self |}.

(** ** [add_labels] *)

(** One pass of the inner loop body: the gate of [key] on row [i]. *)
Definition gate (td : DataFrame) (cutoffs : dict (option Q)) (i : nat)
    (key : string) (label : Z) : result Z :=
  col <- df_getitem td key ;;
  x <- series_getitem col i ;;
  oc <- bound KeyError (dget cutoffs key) ;;
  c <- bound TypeError oc ;;
  if high_reject key
  then (if Qltb c x then Ok 0 else Ok label)
  else (if Qltb x c then Ok 0 else Ok label).

(** [for key in cutoffs.keys(): ...] *)
Fixpoint row_gates (td : DataFrame) (cutoffs : dict (option Q)) (i : nat)
    (keys : list string) (label : Z) : result Z :=
  match keys with
  | [] => Ok label
  | key :: keys' =>
      label' <- gate td cutoffs i key label ;;
      row_gates td cutoffs i keys' label'
  end.

(** [for i in range(...): label = 1; ...; labels.append(label)] *)
Fixpoint label_rows (td : DataFrame) (cutoffs : dict (option Q))
    (rows : list nat) (labels : list Z) : result (list Z) :=
  match rows with
  | [] => Ok labels
  | i :: rows' =>
      label <- row_gates td cutoffs i (dkeys cutoffs) 1 ;;
      label_rows td cutoffs rows' (labels ++ [label])
  end.

Definition add_labels (self : TrainClassifier) (training_data : DataFrame)
    (cutoffs : dict (option Q)) : result (list Z * TrainClassifier) :=
  labels <- label_rows training_data cutoffs (seq 0 (index_len training_data)) [] ;;
  Ok (labels, set_labels_train self labels).

(** ** [set_cutoffs] *)

Section Estimator.
Context {SkModel V : Type} `{Services SkModel V}.

(** The quantile level of a feature: [1 - discards[key]] for a
    high-rejects feature, [discards[key]] otherwise. *)
Definition level (key : string) (d : Q) : Q :=
  (if high_reject key then 1 - d else d)%Q.

Fixpoint set_cutoffs_loop (training_data : DataFrame) (discards : dict Q)
    (keys : list string) (cutoffs : dict (option Q)) : result (dict (option Q)) :=
  match keys with
  | [] => Ok cutoffs
  | key :: keys' =>
      col <- df_getitem training_data key ;;
      d <- bound KeyError (dget discards key) ;;
      c <- quantile col (level key d) ;;
      set_cutoffs_loop training_data discards keys' (dset cutoffs key (Some c))
  end.

Definition set_cutoffs (training_data : DataFrame) (discards : dict Q)
    (cutoffs : dict (option Q)) : result (dict (option Q)) :=
  set_cutoffs_loop training_data discards (dkeys cutoffs) cutoffs.
End Estimator.

(** ** Criteria and the search *)

(** [a - b] on a Python list and a NumPy vector: element by element, a
    vector of length one being broadcast. *)
Fixpoint zip_sub (a b : list Z) : list Z :=
  match a, b with
  | x :: a', y :: b' => (x - y) :: zip_sub a' b'
  | _, _ => []
  end.

Definition np_sub (a b : list Z) : result (list Z) :=
  if Nat.eqb (List.length a) (List.length b) then Ok (zip_sub a b)
  else match a, b with
       | [x], _ => Ok (map (fun y => x - y) b)
       | _, [y] => Ok (map (fun x => x - y) a)
       | _, _ => Err ValueError
       end.

(** The built-in [sum]. *)
Definition py_sum (l : list Z) : Z := fold_left Z.add l 0.

(** The spec's wording of the residual sum of squares: the sum over the
    rows [i < n] of [(labels[i] - predictions[i])^2]. *)
Fixpoint sum_sq_resid (labels preds : list Z) (n : nat) : Z :=
  match n with
  | O => 0
  | S n' => sum_sq_resid labels preds n' + (nth n' labels 0 - nth n' preds 0) ^ 2
  end.

(** The third component of the best-model tuple is a reference to the one
    [discards] dictionary of the search, not a value. *)
Inductive dict_ref : Type := discards_obj.

Section Search.
Context {SkModel V : Type} `{FloatOps V} `{Services SkModel V}.

(** [math.log(x)]: a [ValueError] outside the positive numbers. *)
Definition math_log (x : V) : result V :=
  if Vltb (V_of_Z 0) x then Ok (Vln x) else Err ValueError.

(** [max(a, b)]: the second argument only when it is greater. *)
Definition Vmax (a b : V) : V := if Vltb a b then b else a.

(** [train_logreg]: [df[features]] with every column of [df] is [df]. *)
Definition train_logreg (training_data : DataFrame) (labels : list Z)
    : result (Classifier SkModel) :=
  m <- fit training_data labels ;;
  Ok {| classname := "LogisticRegression";
        classifier := m;
        features := df_keys training_data |}.

Definition get_roc_auc (self : TrainClassifier) (model : Classifier SkModel)
    (dev : DataFrame) : result V :=
  pred <- predict (classifier model) dev ;;
  probs <- predict_proba (classifier model) dev ;;
  dl <- bound AttributeError (dev_labels self) ;;
  sc <- score (classifier model) dev dl ;;
  auc1 <- roc_auc_score dl (map fst probs) ;;
  auc2 <- roc_auc_score dl (map snd probs) ;;
  Ok (Vmax auc1 auc2).

Definition get_sse (self : TrainClassifier) (model : Classifier SkModel)
    (training_data : DataFrame) (labels : list Z) : result V :=
  y_hat <- predict (classifier model) training_data ;;
  lt <- bound AttributeError (labels_train self) ;;
  resid <- np_sub lt y_hat ;;
  Ok (Vadd (V_of_Z (py_sum (map (fun r => r ^ 2) resid))) (V_of_Q (1 # 100))).

Definition get_aic (self : TrainClassifier) (model : Classifier SkModel)
    (training_data : DataFrame) (labels : list Z) : result V :=
  sse <- get_sse self model training_data labels ;;
  let k := shape1 training_data in
  l <- math_log sse ;;
  Ok (Vsub (V_of_Z (2 * k)) (Vmul (V_of_Z 2) l)).

Definition get_bic (self : TrainClassifier) (model : Classifier SkModel)
    (training_data : DataFrame) (labels : list Z) : result V :=
  sse <- get_sse self model training_data labels ;;
  let k := shape1 training_data in
  let n := shape0 training_data in
  ln_n <- math_log (V_of_Z n) ;;
  l <- math_log sse ;;
  Ok (Vsub (Vmul ln_n (V_of_Z k)) (Vmul (V_of_Z 2) l)).

(** *** State of [find_best_model] *)

(** What one trial (one pass of the inner loop body) did: a ghost record,
    kept in [history], newest first. *)
Record Trial : Type := {
  t_key : string;
  (** the discard-set when the trial started *)
  t_discards : dict Q;
  (** [zero] *)
  t_zero : bool;
  (** [df_train_copy], [df_dev_copy], [cutoffs_copy] when the model is trained *)
  t_train : DataFrame;
  t_dev : DataFrame;
  t_cutoffs : dict (option Q);
  (** the labels given to [train_logreg] *)
  t_labels : list Z;
  (** [LR], [crit_value] *)
  t_model : Classifier SkModel;
  t_crit : V;
  (** whether the trial replaced [best_model] *)
  t_win : bool
}.

(** [self] and the locals that live across sweeps. *)
Record Frame : Type := {
  self : TrainClassifier;
  cutoffs : dict (option Q);
  discards : dict Q;
  best_model : option (Classifier SkModel * V * dict_ref);
  labels : option (list Z);
  history : list Trial
}.

(** A frame with the locals of the current sweep. *)
Record Sweep : Type := {
  frame : Frame;
  discard : Q;
  best_discard : Q;
  remove_column : bool
}.

(** The value a reference denotes in a frame. *)
Definition deref (fr : Frame) (r : dict_ref) : dict Q :=
  match r with
  | discards_obj => discards fr
  end.

(** Lines 154-156. *)
Definition sweep_init (key : string) (fr : Frame) : result Sweep :=
  d <- bound KeyError (dget (discards fr) key) ;;
  Ok {| frame := fr; discard := d; best_discard := d; remove_column := false |}.

(** The criterion dispatch of lines 177-182; for any other string
    [crit_value] is unbound when line 184 reads it. *)
Definition crit_value_of (criterion : string) (self' : TrainClassifier)
    (LR : Classifier SkModel) (df_train_copy df_dev_copy : DataFrame)
    (labels_v : list Z) : result V :=
  if String.eqb criterion "roc_auc" then get_roc_auc self' LR df_dev_copy
  else if String.eqb criterion "AIC" then get_aic self' LR df_train_copy labels_v
  else if String.eqb criterion "BIC" then get_bic self' LR df_train_copy labels_v
  else Err UnboundLocalError.

(** The comparison of lines 187-198. *)
Definition wins (criterion : string)
    (best : option (Classifier SkModel * V * dict_ref)) (crit_value : V) : bool :=
  if String.eqb criterion "roc_auc" then
    match best with
    | None => true
    | Some (_, b, _) => Vltb b crit_value
    end
  else if String.eqb criterion "AIC" || String.eqb criterion "BIC" then
    match best with
    | None => true
    | Some (_, b, _) => Vltb crit_value b
    end
  else false.

(** The record a trial appends to the history. *)
Definition trial_record (criterion key : string) (sw : Sweep) (zero : bool)
    (tr dv : DataFrame) (cc : dict (option Q)) (lv : list Z)
    (LR : Classifier SkModel) (cv : V) : Trial :=
  {| t_key := key; t_discards := discards (frame sw); t_zero := zero;
     t_train := tr; t_dev := dv; t_cutoffs := cc; t_labels := lv;
     t_model := LR; t_crit := cv;
     t_win := wins criterion (best_model (frame sw)) cv |}.

(** Lines 158-201: one trial. *)
Definition trial (criterion key : string) (sw : Sweep) : result Sweep :=
  let fr := frame sw in
  let df_train_copy := df_training_data (self fr) in
  df_dev_copy <- bound AttributeError (dev_data (self fr)) ;;
  let cutoffs_copy := cutoffs fr in
  d <- bound KeyError (dget (discards fr) key) ;;
  '(zero, df_train_copy, df_dev_copy, cutoffs_copy, labels', self') <-
    (if Qeq_bool d 0 then
       '(_, tr) <- df_pop df_train_copy key ;;
       '(_, dv) <- df_pop df_dev_copy key ;;
       '(_, cc) <- bound KeyError (dpop cutoffs_copy key) ;;
       Ok (true, tr, dv, cc, labels fr, self fr)
     else
       cc <- set_cutoffs df_train_copy (discards fr) cutoffs_copy ;;
       '(l, self') <- add_labels (self fr) df_train_copy cc ;;
       Ok (false, df_train_copy, df_dev_copy, cc, Some l, self')) ;;
  labels_v <- bound UnboundLocalError labels' ;;
  LR <- train_logreg df_train_copy labels_v ;;
  crit_value <- crit_value_of criterion self' LR df_train_copy df_dev_copy labels_v ;;
  let t := trial_record criterion key sw zero df_train_copy df_dev_copy
             cutoffs_copy labels_v LR crit_value in
  let win := t_win t in
  let discard' := (discard sw - (1 # 100))%Q in
  Ok {| frame :=
          {| self := self';
             cutoffs := cutoffs fr;
             discards := dset (discards fr) key (round2 discard');
             best_model := if win then Some (LR, crit_value, discards_obj)
                           else best_model fr;
             labels := labels';
             history := t :: history fr |};
        discard := discard';
        best_discard := if win then round2 (discard sw) else best_discard sw;
        remove_column := if win && zero then true else remove_column sw |}.

(** [for j in range(n)] *)
Fixpoint trials (n : nat) (criterion key : string) (sw : Sweep) : result Sweep :=
  match n with
  | O => Ok sw
  | S n' => sw' <- trial criterion key sw ;; trials n' criterion key sw'
  end.

(** Lines 203-209. *)
Definition sweep_end (key : string) (sw : Sweep) : result Frame :=
  let fr := frame sw in
  '(self', cutoffs') <-
    (if remove_column sw then
       '(_, tr) <- df_pop (df_training_data (self fr)) key ;;
       dev <- bound AttributeError (dev_data (self fr)) ;;
       '(_, dv) <- df_pop dev key ;;
       '(_, cc) <- bound KeyError (dpop (cutoffs fr) key) ;;
       Ok (set_tables (self fr) tr (Some dv), cc)
     else Ok (self fr, cutoffs fr)) ;;
  Ok {| self := self';
        cutoffs := cutoffs';
        discards := dset (discards fr) key (best_discard sw);
        best_model := best_model fr;
        labels := labels fr;
        history := history fr |}.

(** One feature: lines 154-209. *)
Definition sweep (criterion key : string) (fr : Frame) : result Frame :=
  sw <- sweep_init key fr ;;
  sw' <- trials 11 criterion key sw ;;
  sweep_end key sw'.

(** [for key in discards.keys()]: the loop only assigns to existing keys
    of [discards], so it visits the keys the dictionary had at the start. *)
Fixpoint outer (criterion : string) (keys : list string) (fr : Frame) : result Frame :=
  match keys with
  | [] => Ok fr
  | key :: keys' => fr' <- sweep criterion key fr ;; outer criterion keys' fr'
  end.

(** Lines 147-150. *)
Definition search_start (self0 : TrainClassifier) : Frame :=
  let keys := df_keys (df_training_data self0) in
  {| self := self0;
     cutoffs := dict_fromkeys keys None;
     discards := dict_fromkeys keys (discard_estimate self0);
     best_model := None;
     labels := None;
     history := [] |}.

(** The search up to line 211. *)
Definition search (criterion : string) (self0 : TrainClassifier) : result Frame :=
  let fr0 := search_start self0 in
  outer criterion (dkeys (discards fr0)) fr0.

(** The tuple the caller receives, its third component read through the
    reference. *)
Definition returned (fr : Frame) : option (Classifier SkModel * V * dict Q) :=
  match best_model fr with
  | Some (m, c, r) => Some (m, c, deref fr r)
  | None => None
  end.

(** [find_best_model]: the returned value and [self] as the call leaves it. *)
Definition find_best_model (self0 : TrainClassifier) (criterion : string)
    : result (option (Classifier SkModel * V * dict Q) * TrainClassifier) :=
  fr <- search criterion self0 ;;
  Ok (returned fr, self fr).

(** *** Program points *)

(** The search at a loop head: before the sweep of the first key of
    [todo], or inside the sweep of [key] with [j] trials done. *)
Inductive config : Type :=
| AtOuter (todo : list string) (fr : Frame)
| AtInner (key : string) (todo : list string) (j : nat) (sw : Sweep).

Inductive reach (criterion : string) (self0 : TrainClassifier) : config -> Prop :=
| reach_start :
    reach criterion self0
      (AtOuter (dkeys (discards (search_start self0))) (search_start self0))
| reach_enter key todo fr sw :
    reach criterion self0 (AtOuter (key :: todo) fr) ->
    sweep_init key fr = Ok sw ->
    reach criterion self0 (AtInner key todo 0 sw)
| reach_trial key todo j sw sw' :
    reach criterion self0 (AtInner key todo j sw) ->
    (j < 11)%nat ->
    trial criterion key sw = Ok sw' ->
    reach criterion self0 (AtInner key todo (S j) sw')
| reach_leave key todo sw fr :
    reach criterion self0 (AtInner key todo 11 sw) ->
    sweep_end key sw = Ok fr ->
    reach criterion self0 (AtOuter todo fr).

(** The frame of a configuration. *)
Definition frame_of (c : config) : Frame :=
  match c with
  | AtOuter _ fr => fr
  | AtInner _ _ _ sw => frame sw
  end.

(** A configuration at which a trial is about to start or a sweep is
    over: every loop head except the exit of the inner loop. *)
Definition trial_head (c : config) : bool :=
  match c with
  | AtOuter _ _ => true
  | AtInner _ _ j _ => Nat.ltb j 11
  end.


(** The newest winning trial of a history. *)
Fixpoint last_win (h : list Trial) : option Trial :=
  match h with
  | [] => None
  | t :: h' => if t_win t then Some t else last_win h'
  end.
End Search.

(** ** A concrete instance of the services, to run the search

    Stand-ins for pandas and scikit-learn on exact rationals: the quantile
    with linear interpolation, the ROC AUC as the fraction of correctly
    ordered (positive, negative) pairs, and a scorer in place of logistic
    regression (the mean of the feature columns as class-1 probability),
    which like scikit-learn's [fit] refuses a table with no column or no
    row, and like the liblinear solver labels of a single class. *)
Module Sample.

Fixpoint insert (x : Q) (l : list Q) : list Q :=
  match l with
  | [] => [x]
  | y :: l' => if Qle_bool x y then x :: l else y :: insert x l'
  end.

Definition sort (l : list Q) : list Q := fold_right insert [] l.

(** [Series.quantile(q)], interpolation ['linear']. *)
Definition quantile_linear (s : Series) (q : Q) : result Q :=
  if Qltb q 0 || Qltb 1 q then Err ValueError
  else match sort s with
       | [] => Err ValueError
       | (x0 :: _) as sorted =>
           let h := (inject_Z (Z.of_nat (List.length s) - 1) * q)%Q in
           let lo := Qfloor h in
           let a := nth (Z.to_nat lo) sorted x0 in
           let b := nth (Z.to_nat (lo + 1)) sorted a in
           Ok (Qred (a + (h - inject_Z lo) * (b - a)))
       end.

(** The fitted stand-in remembers the feature names. *)
Definition Model : Type := list string.

Definition single_class (y : list Z) : bool :=
  match y with
  | [] => true
  | l :: y' => forallb (Z.eqb l) y'
  end.

Definition fit_mean (X : DataFrame) (y : list Z) : result Model :=
  match columns X, index_len X with
  | [], _ | _, O => Err ValueError
  | _, _ => if single_class y then Err ValueError else Ok (df_keys X)
  end.

Fixpoint row_sum (X : DataFrame) (feats : list string) (i : nat) : result Q :=
  match feats with
  | [] => Ok 0%Q
  | f :: feats' =>
      col <- df_getitem X f ;;
      x <- series_getitem col i ;;
      s <- row_sum X feats' i ;;
      Ok (x + s)%Q
  end.

Definition proba_row (m : Model) (X : DataFrame) (i : nat) : result (Q * Q) :=
  match m with
  | [] => Ok (1 # 2, 1 # 2)%Q
  | _ =>
      s <- row_sum X m i ;;
      let p := Qred (s / inject_Z (Z.of_nat (List.length m))) in
      Ok (Qred (1 - p), p)
  end.

Fixpoint map_rows {A : Type} (f : nat -> result A) (rows : list nat) : result (list A) :=
  match rows with
  | [] => Ok []
  | i :: rows' => a <- f i ;; l <- map_rows f rows' ;; Ok (a :: l)
  end.

Definition predict_proba_mean (m : Model) (X : DataFrame) : result (list (Q * Q)) :=
  map_rows (proba_row m X) (seq 0 (index_len X)).

Definition predict_mean (m : Model) (X : DataFrame) : result (list Z) :=
  ps <- predict_proba_mean m X ;;
  Ok (map (fun p => if Qltb (1 # 2) (snd p) then 1 else 0) ps).

Definition score_mean (m : Model) (X : DataFrame) (y : Series) : result Q :=
  ps <- predict_mean m X ;;
  Ok (Qred (inject_Z (Z.of_nat (List.length
        (filter (fun py => Qeq_bool (inject_Z (fst py)) (snd py)) (combine ps y))))
      / inject_Z (Z.of_nat (List.length ps)))).

(** The pairs (positive, negative) ordered by the score count 1, the ties
    one half. *)
Definition pair_credit (sp sn : Q) : Q :=
  if Qltb sn sp then 1 else if Qeq_bool sn sp then 1 # 2 else 0.

Definition auc (y_true : Series) (y_score : list Q) : result Q :=
  let rows := combine y_true y_score in
  let pos := map snd (filter (fun r => Qeq_bool (fst r) 1) rows) in
  let neg := map snd (filter (fun r => negb (Qeq_bool (fst r) 1)) rows) in
  match pos, neg with
  | [], _ | _, [] => Err ValueError
  | _, _ =>
      let credit :=
        fold_right Qplus 0
          (flat_map (fun sp => map (pair_credit sp) neg) pos) in
      Ok (Qred (credit / inject_Z (Z.of_nat (List.length pos * List.length neg))))
  end%Q.

(** Rational criterion values.  [Q] has no logarithm: [Vln] is a
    placeholder, and this instance is run with the [roc_auc] criterion
    only. *)
#[export] Instance Q_ops : FloatOps Q := {
  Vltb := Qltb;
  Vadd := Qplus;
  Vsub := Qminus;
  Vmul := Qmult;
  V_of_Z := inject_Z;
  V_of_Q := fun q => q;
  Vln := fun x => (x - 1)%Q
}.

#[export] Instance services : Services Model Q := {
  quantile := quantile_linear;
  fit := fit_mean;
  predict := predict_mean;
  predict_proba := predict_proba_mean;
  score := score_mean;
  roc_auc_score := auc
}.

(** Two features, four training rows, four dev rows with labels. *)
Definition train2 : DataFrame :=
  {| index_len := 4;
     columns := [("A", [9 # 10; 0; 0; 1 # 2]); ("B", [1 # 10; 2 # 10; 3 # 10; 4 # 10])]%Q |}.

Definition dev2 : DataFrame :=
  {| index_len := 4;
     columns := [("A", [9 # 10; 0; 0; 1 # 2]); ("B", [1 # 10; 2 # 10; 3 # 10; 4 # 10]);
                 ("label", [0; 0; 1; 1])]%Q |}.

(** One feature. *)
Definition train1 : DataFrame :=
  {| index_len := 4; columns := [("A", [1 # 10; 2 # 10; 3 # 10; 4 # 10])]%Q |}.

Definition dev1 : DataFrame :=
  {| index_len := 4;
     columns := [("A", [1 # 10; 2 # 10; 3 # 10; 4 # 10]); ("label", [0; 0; 1; 1])]%Q |}.

(** A marked feature next to an unmarked one. *)
Definition train_ce : DataFrame :=
  {| index_len := 4;
     columns := [("A", [1 # 10; 2 # 10; 3 # 10; 4 # 10]);
                 ("CrossEntropyFilter.0", [5; 1; 2; 8])]%Q |}.

(** No feature at all: the table of a scores file whose records are empty. *)
Definition train0 : DataFrame := {| index_len := 2; columns := [] |}.

Definition self_of (train : DataFrame) (dev : option DataFrame) (d : option Q)
    : TrainClassifier :=
  match init train dev d with
  | Ok s => s
  | Err _ =>
      {| df_training_data := train; discard_estimate := 0;
         dev_data := None; dev_labels := None; labels_train := None |}
  end.

(** The sample classifiers: two features with labelled dev data, one
    feature with the default discard given, no feature and no dev data. *)
Definition self2 : TrainClassifier := self_of train2 (Some dev2) None.

Definition self1 (d : Q) : TrainClassifier := self_of train1 (Some dev1) (Some d).

Definition self0_nodev : TrainClassifier := self_of train0 None None.

(** The sweep of [key], entered from the start of the search, after [n]
    trials with the [roc_auc] criterion. *)
Definition sweep_after (s : TrainClassifier) (key : string) (n : nat)
    : Sweep (SkModel := Model) (V := Q) :=
  match (sw <- sweep_init key (search_start s) ;; trials n "roc_auc" key sw) with
  | Ok sw => sw
  | Err _ =>
      {| frame := search_start s; discard := 0; best_discard := 0;
         remove_column := false |}
  end.

(** The two-feature sample with dev labels that the very first model
    already separates: no later trial wins and the search runs to its
    end. *)
Definition dev2b : DataFrame :=
  {| index_len := 4;
     columns := [("A", [9 # 10; 0; 0; 1 # 2]); ("B", [1 # 10; 2 # 10; 3 # 10; 4 # 10]);
                 ("label", [1; 0; 0; 1])]%Q |}.

Definition self2b : TrainClassifier := self_of train2 (Some dev2b) None.

(** The two-feature sample with a given default discard. *)
Definition self2d (d : Q) : TrainClassifier := self_of train2 (Some dev2) (Some d).

(** The frame after the whole sweep of [key], entered from the start of
    the search, with the [roc_auc] criterion. *)
Definition after_sweep (s : TrainClassifier) (key : string)
    : Frame (SkModel := Model) (V := Q) :=
  match sweep "roc_auc" key (search_start s) with
  | Ok fr => fr
  | Err _ => search_start s
  end.

(** The frame at the end of the search with the [roc_auc] criterion. *)
Definition final_frame (s : TrainClassifier) : Frame (SkModel := Model) (V := Q) :=
  match search "roc_auc" s with
  | Ok fr => fr
  | Err _ => search_start s
  end.
End Sample.


(** ** Criterion values as real numbers *)

(** The float operations read on the reals: [math.log] is [ln]. *)
#[export] Instance R_ops : FloatOps R := {
  Vltb := fun x y => if Rlt_dec x y then true else false;
  Vadd := Rplus;
  Vsub := Rminus;
  Vmul := Rmult;
  V_of_Z := IZR;
  V_of_Q := Q2R;
  Vln := ln
}.

(** The sample services with real criterion values. *)
Definition real_services : Services Sample.Model R := {|
  quantile := Sample.quantile_linear;
  fit := Sample.fit_mean;
  predict := Sample.predict_mean;
  predict_proba := Sample.predict_proba_mean;
  score := Sample.score_mean;
  roc_auc_score := fun y s => a <- Sample.auc y s ;; Ok (Q2R a)
|}.

(** ** The claims' vocabulary *)

(** A feature whose name carries one of the two markers. *)
Definition marked (key : string) : Prop :=
  is_substring "CrossEntropyFilter" key \/ is_substring "WordAlign" key.

(** The gate of [key] fails on row [i]: the score strictly exceeds the
    cutoff for a marked feature, is strictly below it for any other. *)
Definition gate_fails (td : DataFrame) (cutoffs : dict (option Q)) (i : nat)
    (key : string) : Prop :=
  exists col x c,
    dget (columns td) key = Some col /\
    nth_error col i = Some x /\
    dget cutoffs key = Some (Some c) /\
    ((marked key /\ (c < x)%Q) \/ (~ marked key /\ (x < c)%Q)).

(** Every value a dictionary of fractions holds lies in [0, 1]. *)
Definition in_unit (d : dict Q) : Prop :=
  forall k v, In (k, v) d -> (0 <= v <= 1)%Q.

(** Two discard-sets with the same keys in the same order and equal
    numbers under them ([==] on floats). *)
Definition same_numbers (d d' : dict Q) : Prop :=
  Forall2 (fun a b => fst a = fst b /\ (snd a == snd b)%Q) d d'.

(** [p0] and [p1] exchanged in every row of [predict_proba]. *)
Definition swap_columns (probs : list (Q * Q)) : list (Q * Q) :=
  map (fun p => (snd p, fst p)) probs.


(** ** Invariants of the search *)

Section Invariants.
Context {SkModel V : Type} `{FloatOps V} `{Services SkModel V}.

#[local] Abbreviation Frame := (@Frame SkModel V).
#[local] Abbreviation Trial := (@Trial SkModel V).
#[local] Abbreviation config := (@config SkModel V).


(** The discard-set keeps the keys [ks0] it started with, and the loops
    range over them. *)
Definition discards_keys_inv (ks0 : list string) (c : config) : Prop :=
  dkeys (discards (frame_of c)) = ks0 /\
  match c with
  | AtOuter todo _ => incl todo ks0
  | AtInner key todo _ _ => In key ks0 /\ incl todo ks0
  end.

(** The cutoff-set has the keys of the live training table, which are
    among [ks0]. *)
Definition cutoffs_keys_inv (ks0 : list string) (c : config) : Prop :=
  dkeys (cutoffs (frame_of c)) = df_keys (df_training_data (self (frame_of c))) /\
  incl (df_keys (df_training_data (self (frame_of c)))) ks0.

(** The discard-set of a winning trial with the entry of the trial's own
    feature rounded to two decimals. *)
Definition settled (t : Trial) : dict Q :=
  match dget (t_discards t) (t_key t) with
  | Some d => dset (t_discards t) (t_key t) (round2 d)
  | None => t_discards t
  end.

(** [best_model] holds the model and the value of the newest winning
    trial. *)
Definition best_inv (fr : Frame) : Prop :=
  match best_model fr, last_win (history fr) with
  | None, None => True
  | Some (m, c, _), Some t => m = t_model t /\ c = t_crit t
  | _, _ => False
  end.

(** Between sweeps the discard-set is the settled discard-set of the
    newest winning trial; inside the sweep of [key] it is that
    dictionary ([base]) up to the entry of [key], which [best_discard]
    remembers. *)
Definition alias_inv (c : config) : Prop :=
  best_inv (frame_of c) /\
  match c with
  | AtOuter _ fr =>
      forall t, last_win (history fr) = Some t -> discards fr = settled t
  | AtInner key _ _ sw =>
      exists base cur,
        discards (frame sw) = dset base key cur /\
        dget base key = Some (best_discard sw) /\
        round2 cur = round2 (discard sw) /\
        forall t, last_win (history (frame sw)) = Some t -> base = settled t
  end.

(** Every value is a number of hundredths. *)
Definition hundredths (d : dict Q) : Prop :=
  Forall (fun kv => (round2 (snd kv) == snd kv)%Q) d.

Definition hundredths_inv (c : config) : Prop :=
  hundredths (discards (frame_of c)) /\
  Forall (fun t => hundredths (t_discards t)) (history (frame_of c)) /\
  match c with
  | AtOuter _ _ => True
  | AtInner _ _ _ sw => (round2 (best_discard sw) == best_discard sw)%Q
  end.

(** [j] steps of 0.01. *)
Definition steps (j : nat) : Q := (inject_Z (Z.of_nat j) * (1 # 100))%Q.

(** With the default [e] and up to [m] decrements: the features still to
    sweep sit at [e], the accumulator has lost [j] steps, the entries of
    the other features and [best_discard] are in [0, 1], and so is the
    whole discard-set during the first [m] decrements. *)
Definition unit_inv (e : Q) (m : nat) (c : config) : Prop :=
  match c with
  | AtOuter todo fr =>
      NoDup todo /\
      (forall k, In k todo -> dget (discards fr) k = Some e) /\
      in_unit (discards fr)
  | AtInner key todo j sw =>
      NoDup (key :: todo) /\
      (forall k, In k todo -> dget (discards (frame sw)) k = Some e) /\
      (j <= 11)%nat /\
      (discard sw == e - steps j)%Q /\
      (0 <= best_discard sw <= 1)%Q /\
      (forall k v, In (k, v) (discards (frame sw)) -> k <> key -> (0 <= v <= 1)%Q) /\
      ((j <= m)%nat -> in_unit (discards (frame sw)))
  end.
End Invariants.

(** ** [Classifier.weights] *)

Section Weights.
Context {SkModel : Type}.

(** [classifier.intercept_[0]] and [classifier.coef_[0]] of a fitted
    estimator. *)
Variable intercept0 : SkModel -> Q.
Variable coef0 : SkModel -> list Q.

(** The items the generator yields, in order; nothing (after the warning)
    for any class but logistic regression. *)
Definition weights (c : Classifier SkModel) : list (string * Q) :=
  if String.eqb (classname c) "LogisticRegression"
  then ("(intercept)", intercept0 (classifier c))
       :: combine (features c) (coef0 (classifier c))
  else [].
End Weights.

(** The weights of the sample scorer: no intercept, the same weight on
    every feature. *)
Definition sample_intercept (m : Sample.Model) : Q := 0.

Definition sample_coef (m : Sample.Model) : list Q :=
  map (fun _ => (1 # Pos.of_nat (List.length m))%Q) m.

(** * Verification *)

Import Sample.

(** ** The error monad *)

Lemma bind_ok {A B : Type} (m : result A) (k : A -> result B) (b : B) :
  bind m k = Ok b -> exists a, m = Ok a /\ k a = Ok b.
Proof.
  destruct m as [a | e]; simpl; intros E; [exists a; auto | discriminate].
Qed.

Lemma bound_ok {A : Type} (e : error) (o : option A) (a : A) :
  bound e o = Ok a -> o = Some a.
Proof.
  destruct o; simpl; congruence.
Qed.

(** Invert every successful [bind] and [bound] among the hypotheses. *)
Ltac inv_ok :=
  repeat match goal with
    | E : bind _ _ = Ok _ |- _ =>
        let a := fresh "a" in
        let Ea := fresh "Ea" in
        apply bind_ok in E; destruct E as (a & Ea & E)
    | E : bound _ _ = Ok _ |- _ => apply bound_ok in E
    | E : Ok _ = Ok _ |- _ => inversion E; subst; clear E
    | E : Err _ = Ok _ |- _ => discriminate E
    end.

(** ** Dictionaries *)

Section DictFacts.
Context {A : Type}.
Implicit Types (d : dict A) (k : string) (v : A).

Lemma dget_dset_eq d k v : dget (dset d k v) k = Some v.
Proof.
  induction d as [| [k' v'] d IH]; simpl.
  - now rewrite String.eqb_refl.
  - destruct (String.eqb k k') eqn:E; simpl; rewrite E; auto.
Qed.

Lemma dget_dset_neq d k k' v : k' <> k -> dget (dset d k v) k' = dget d k'.
Proof.
  intros N. induction d as [| [k0 v0] d IH]; simpl.
  - apply String.eqb_neq in N. now rewrite N.
  - destruct (String.eqb k k0) eqn:E; simpl.
    + apply String.eqb_eq in E; subst k0.
      apply String.eqb_neq in N. now rewrite N.
    + now rewrite IH.
Qed.

Lemma dset_dset d k v w : dset (dset d k v) k w = dset d k w.
Proof.
  induction d as [| [k' v'] d IH]; simpl.
  - now rewrite String.eqb_refl.
  - destruct (String.eqb k k') eqn:E; simpl; rewrite E; congruence.
Qed.

Lemma dset_same d k v : dget d k = Some v -> dset d k v = d.
Proof.
  induction d as [| [k' v'] d IH]; simpl; [discriminate |].
  destruct (String.eqb k k') eqn:E; intros G.
  - congruence.
  - now rewrite IH.
Qed.

Lemma dget_in_keys d k v : dget d k = Some v -> In k (dkeys d).
Proof.
  induction d as [| [k' v'] d IH]; simpl; [discriminate |].
  destruct (String.eqb k k') eqn:E; intros G.
  - apply String.eqb_eq in E. auto.
  - auto.
Qed.

Lemma in_keys_dget d k : In k (dkeys d) -> exists v, dget d k = Some v.
Proof.
  induction d as [| [k' v'] d IH]; simpl; [tauto |].
  intros [E | I].
  - subst. rewrite String.eqb_refl. eauto.
  - destruct (String.eqb k k'); eauto.
Qed.

Lemma dkeys_dset_in d k v : In k (dkeys d) -> dkeys (dset d k v) = dkeys d.
Proof.
  induction d as [| [k' v'] d IH]; simpl; [tauto |].
  destruct (String.eqb k k') eqn:E; simpl; [reflexivity |].
  intros [E' | I].
  - subst. now rewrite String.eqb_refl in E.
  - now rewrite IH.
Qed.

Lemma dkeys_dset_new d k v : ~ In k (dkeys d) -> dkeys (dset d k v) = dkeys d ++ [k].
Proof.
  induction d as [| [k' v'] d IH]; simpl; [reflexivity |].
  intros N. destruct (String.eqb k k') eqn:E.
  - apply String.eqb_eq in E. subst. tauto.
  - simpl. rewrite IH; tauto.
Qed.

Lemma in_dset d k v k' v' :
  In (k', v') (dset d k v) -> (k' = k /\ v' = v) \/ In (k', v') d.
Proof.
  induction d as [| [k0 v0] d IH]; simpl.
  - intros [E | []]. inversion E. auto.
  - destruct (String.eqb k k0) eqn:E; simpl.
    + apply String.eqb_eq in E. subst k0.
      intros [E' | I]; [inversion E'; auto | auto].
    + intros [E' | I]; [auto |]. destruct (IH I); auto.
Qed.

Lemma dkeys_dpop d k v d' : dpop d k = Some (v, d') -> dkeys d' = remove_key k (dkeys d).
Proof.
  revert d'. induction d as [| [k' v'] d IH]; simpl; [discriminate |].
  intros d'. destruct (String.eqb k k') eqn:E.
  - intros G. inversion G. reflexivity.
  - destruct (dpop d k) as [[x d''] |]; [| discriminate].
    intros G. inversion G; subst. simpl. f_equal. now apply IH.
Qed.

Lemma dkeys_fold_dset (ks : list string) v d :
  NoDup (dkeys d ++ ks) ->
  dkeys (fold_left (fun d k => dset d k v) ks d) = dkeys d ++ ks.
Proof.
  revert d. induction ks as [| k ks IH]; simpl; intros d ND.
  - now rewrite app_nil_r.
  - assert (NI : ~ In k (dkeys d)).
    { intros I. apply NoDup_remove_2 in ND. apply ND.
      apply in_or_app. auto. }
    rewrite IH; rewrite dkeys_dset_new by assumption.
    + now rewrite <- app_assoc.
    + rewrite <- app_assoc. exact ND.
Qed.

Lemma dkeys_fromkeys (ks : list string) v : NoDup ks -> dkeys (dict_fromkeys ks v) = ks.
Proof.
  intros ND. unfold dict_fromkeys. now rewrite dkeys_fold_dset.
Qed.

Lemma nodup_dset d k v : NoDup (dkeys d) -> NoDup (dkeys (dset d k v)).
Proof.
  intros ND. destruct (in_dec string_dec k (dkeys d)) as [I | NI].
  - now rewrite dkeys_dset_in.
  - rewrite dkeys_dset_new by assumption.
    apply NoDup_app; [assumption | repeat constructor; simpl; tauto |].
    intros x Hx [E | []]. subst. contradiction.
Qed.

Lemma nodup_fromkeys (ks : list string) v : NoDup (dkeys (dict_fromkeys ks v)).
Proof.
  unfold dict_fromkeys.
  assert (G : forall d, NoDup (dkeys d) ->
                NoDup (dkeys (fold_left (fun d k => dset d k v) ks d))).
  { induction ks as [| k ks IH]; simpl; intros d ND; [assumption |].
    apply IH. now apply nodup_dset. }
  apply G. constructor.
Qed.

Lemma dget_fold_dset (ks : list string) v d k :
  In k ks -> dget (fold_left (fun d k => dset d k v) ks d) k = Some v.
Proof.
  revert d. induction ks as [| k0 ks IH]; simpl; intros d; [tauto |].
  intros [E | I].
  - subst k0. destruct (in_dec string_dec k ks) as [I | NI]; [now apply IH |].
    assert (G : forall d', dget d' k = Some v ->
                  dget (fold_left (fun d k => dset d k v) ks d') k = Some v).
    { clear IH. induction ks as [| k1 ks IH]; simpl; intros d' G; [assumption |].
      apply IH; [simpl in NI; tauto |].
      rewrite dget_dset_neq; [assumption | simpl in NI; intros E; subst; tauto]. }
    apply G. apply dget_dset_eq.
  - now apply IH.
Qed.

End DictFacts.

Lemma in_remove_key (k x : string) (ks : list string) : In x (remove_key k ks) -> In x ks.
Proof.
  induction ks as [| k' ks IH]; simpl; [tauto |].
  destruct (String.eqb k k'); simpl; intuition.
Qed.

(** ** Substrings and the direction policy *)

Lemma prefix_app (n h : string) :
  String.prefix n h = true <-> exists post, h = (n ++ post)%string.
Proof.
  revert h. induction n as [| a n IH]; intros h.
  - destruct h; simpl; (split; [intros _; eexists; reflexivity | reflexivity]).
  - destruct h as [| b h]; simpl.
    + split; [discriminate | intros [post E]; discriminate].
    + destruct (ascii_dec a b) as [E | N].
      * subst b. rewrite IH. split; intros [post E]; exists post; congruence.
      * split; [discriminate | intros [post E]; congruence].
Qed.

Lemma contains_unfold (n h : string) :
  contains n h =
  String.prefix n h || match h with
                       | EmptyString => false
                       | String _ h' => contains n h'
                       end.
Proof.
  destruct h; reflexivity.
Qed.

Lemma contains_spec (n h : string) : contains n h = true <-> is_substring n h.
Proof.
  unfold is_substring. split.
  - induction h as [| c h IH]; rewrite contains_unfold; intros E;
      apply orb_true_iff in E; destruct E as [E | E].
    + apply prefix_app in E. destruct E as [post E]. exists EmptyString, post. exact E.
    + discriminate.
    + apply prefix_app in E. destruct E as [post E]. exists EmptyString, post. exact E.
    + destruct (IH E) as (pre & post & E'). exists (String c pre), post.
      simpl. now rewrite E'.
  - intros (pre & post & E). subst h.
    induction pre as [| c pre IH]; rewrite contains_unfold; apply orb_true_iff.
    + left. apply prefix_app. exists post. reflexivity.
    + right. exact IH.
Qed.

Lemma high_reject_spec (key : string) : high_reject key = true <-> marked key.
Proof.
  unfold high_reject, marked. rewrite orb_true_iff, !contains_spec. tauto.
Qed.

Lemma high_reject_false (key : string) : high_reject key = false <-> ~ marked key.
Proof.
  rewrite <- high_reject_spec. destruct (high_reject key); split; congruence.
Qed.

(** ** Rationals: comparison and rounding *)

Lemma Qltb_lt (x y : Q) : Qltb x y = true <-> (x < y)%Q.
Proof.
  unfold Qltb. rewrite negb_true_iff. split.
  - intros E. apply Qnot_le_lt. intros L. apply Qle_bool_iff in L. congruence.
  - intros L. destruct (Qle_bool y x) eqn:E; [| reflexivity].
    apply Qle_bool_iff in E. exfalso. exact (Qlt_not_le _ _ L E).
Qed.

Lemma Qltb_asym (x y : Q) : Qltb x y = true -> Qltb y x = false.
Proof.
  intros L. apply Qltb_lt in L. destruct (Qltb y x) eqn:E; [| reflexivity].
  apply Qltb_lt in E. exfalso. exact (Qlt_irrefl _ (Qlt_trans _ _ _ L E)).
Qed.

Lemma round_half_even_bounds (q : Q) :
  Qfloor q <= round_half_even q <= Qfloor q + 1.
Proof.
  unfold round_half_even.
  destruct (Qcompare (q - inject_Z (Qfloor q)) (1 # 2)); [destruct (Z.even _) | |]; lia.
Qed.

Lemma round_half_even_inject (z : Z) (q : Q) : (q == inject_Z z)%Q -> round_half_even q = z.
Proof.
  intros E. unfold round_half_even.
  assert (F : Qfloor q = z) by (rewrite E; apply Qfloor_Z).
  rewrite F.
  assert (L : (q - inject_Z z < 1 # 2)%Q) by (rewrite E; unfold Qminus; rewrite Qplus_opp_r; reflexivity).
  apply Qlt_alt in L. unfold Qcompare in *. now rewrite L.
Qed.

Lemma round2_idem (x : Q) : round2 (round2 x) = round2 x.
Proof.
  unfold round2 at 1 3. f_equal.
  apply round_half_even_inject.
  unfold round2, Qeq, Qmult, inject_Z. simpl. lia.
Qed.

Lemma round2_unit (x : Q) : (0 <= x <= 1)%Q -> (0 <= round2 x <= 1)%Q.
Proof.
  intros [L U].
  assert (F0 : 0 <= Qfloor (x * 100)).
  { pose proof (Qfloor_resp_le (inject_Z 0) (x * 100)) as P.
    rewrite Qfloor_Z in P. apply P. change (inject_Z 0) with 0%Q. Lqa.lra. }
  assert (F1 : Qfloor (x * 100) <= 100).
  { pose proof (Qfloor_resp_le (x * 100) (inject_Z 100)) as P.
    rewrite Qfloor_Z in P. apply P. change (inject_Z 100) with 100%Q. Lqa.lra. }
  pose proof (round_half_even_bounds (x * 100)) as [B0 B1].
  assert (R : round_half_even (x * 100) <= 100).
  { destruct (Z.eq_dec (Qfloor (x * 100)) 100) as [E | N]; [| lia].
    rewrite (round_half_even_inject 100); [lia |].
    apply Qle_antisym; [change (inject_Z 100) with 100%Q; Lqa.lra |].
    pose proof (Qfloor_le (x * 100)) as P. rewrite E in P. exact P. }
  unfold round2, Qle; simpl. lia.
Qed.

(** ** [set_cutoffs] *)

Section EstimatorFacts.
Context {SkModel V : Type} `{Services SkModel V}.

(** The loop over the keys: every visited key receives its quantile, the
    others keep their entry, and the key list does not change. *)
Lemma set_cutoffs_loop_spec (td : DataFrame) (discards : dict Q) :
  forall (keys : list string) (cutoffs : dict (option Q)),
    (forall key, In key keys ->
       In key (dkeys cutoffs) /\
       exists col d c, dget (columns td) key = Some col /\
                       dget discards key = Some d /\
                       quantile col (level key d) = Ok c) ->
    exists cutoffs',
      set_cutoffs_loop td discards keys cutoffs = Ok cutoffs' /\
      dkeys cutoffs' = dkeys cutoffs /\
      (forall key col d c, In key keys ->
         dget (columns td) key = Some col -> dget discards key = Some d ->
         quantile col (level key d) = Ok c ->
         dget cutoffs' key = Some (Some c)) /\
      (forall key, ~ In key keys -> dget cutoffs' key = dget cutoffs key).
Proof.
  induction keys as [| k keys IH]; intros cutoffs Hk; simpl.
  - exists cutoffs. repeat split; auto. intros; contradiction.
  - destruct (Hk k (or_introl eq_refl)) as (Ik & col & d & c & Ec & Ed & Eq).
    unfold df_getitem. rewrite Ec, Ed. simpl. rewrite Eq. simpl.
    destruct (IH (dset cutoffs k (Some c))) as (c' & E' & K' & In' & Out').
    { intros key Hin. rewrite dkeys_dset_in by assumption.
      apply Hk. now right. }
    exists c'. split; [exact E' |]. split; [| split].
    + rewrite K'. now apply dkeys_dset_in.
    + intros key col0 d0 c0 Hin Ec0 Ed0 Eq0.
      destruct (in_dec string_dec key keys) as [I | NI]; [eauto |].
      destruct Hin as [E | I]; [subst key | contradiction].
      rewrite Out' by assumption. rewrite dget_dset_eq. congruence.
    + intros key NI. rewrite Out' by tauto.
      apply dget_dset_neq. intros E. subst. tauto.
Qed.

(** C1.  For every key of the cutoff-set, [set_cutoffs] stores the
    (1 - discard)-quantile of the feature's training column when the
    feature name contains 'CrossEntropyFilter' or 'WordAlign', and the
    discard-quantile of the column for every other name; it succeeds
    whenever every key is a column with a discard whose quantile pandas
    can compute, and it keeps the key list. *)
Theorem set_cutoffs_quantiles (td : DataFrame) (discards : dict Q)
    (cutoffs : dict (option Q)) :
  (forall key, In key (dkeys cutoffs) ->
     exists col d c, dget (columns td) key = Some col /\
                     dget discards key = Some d /\
                     quantile col (level key d) = Ok c) ->
  exists cutoffs',
    set_cutoffs td discards cutoffs = Ok cutoffs' /\
    dkeys cutoffs' = dkeys cutoffs /\
    forall key, In key (dkeys cutoffs) ->
      exists col d c,
        dget (columns td) key = Some col /\
        dget discards key = Some d /\
        dget cutoffs' key = Some (Some c) /\
        (marked key -> quantile col (1 - d) = Ok c) /\
        (~ marked key -> quantile col d = Ok c).
Proof.
  intros Hk. unfold set_cutoffs.
  destruct (set_cutoffs_loop_spec td discards (dkeys cutoffs) cutoffs)
    as (c' & E' & K' & In' & _).
  { intros key I. split; [assumption | now apply Hk]. }
  exists c'. split; [exact E' |]. split; [exact K' |].
  intros key I. destruct (Hk key I) as (col & d & c & Ec & Ed & Eq).
  exists col, d, c. repeat split; eauto.
  - intros M. apply high_reject_spec in M. unfold level in Eq. now rewrite M in Eq.
  - intros M. apply high_reject_false in M. unfold level in Eq. now rewrite M in Eq.
Qed.
End EstimatorFacts.

(** The theorem at the sample table with one marked and one unmarked
    feature, both discards at 0.25. *)
Lemma set_cutoffs_quantiles_witness :
  exists cutoffs',
    set_cutoffs Sample.train_ce
      [("A", 1 # 4); ("CrossEntropyFilter.0", 1 # 4)]%Q
      [("A", None); ("CrossEntropyFilter.0", None)] = Ok cutoffs' /\
    dkeys cutoffs' = ["A"; "CrossEntropyFilter.0"] /\
    forall key, In key ["A"; "CrossEntropyFilter.0"] ->
      exists col d c,
        dget (columns Sample.train_ce) key = Some col /\
        dget [("A", 1 # 4); ("CrossEntropyFilter.0", 1 # 4)]%Q key = Some d /\
        dget cutoffs' key = Some (Some c) /\
        (marked key -> quantile col (1 - d) = Ok c) /\
        (~ marked key -> quantile col d = Ok c).
Proof.
  apply (set_cutoffs_quantiles Sample.train_ce
           [("A", 1 # 4); ("CrossEntropyFilter.0", 1 # 4)]%Q
           [("A", None); ("CrossEntropyFilter.0", None)]).
  intros key [E | [E | []]]; subst key.
  - exists [1 # 10; 2 # 10; 3 # 10; 4 # 10]%Q, (1 # 4)%Q, (7 # 40)%Q.
    repeat split; reflexivity.
  - exists [5; 1; 2; 8]%Q, (1 # 4)%Q, (23 # 4)%Q.
    repeat split; reflexivity.
Defined.

(** ** [add_labels] *)

Lemma gate_spec (td : DataFrame) (cutoffs : dict (option Q)) (i : nat)
    (key : string) (label : Z) (col : Series) (x c : Q) :
  dget (columns td) key = Some col ->
  nth_error col i = Some x ->
  dget cutoffs key = Some (Some c) ->
  exists r, gate td cutoffs i key label = Ok r /\
            ((r = 0 /\ gate_fails td cutoffs i key) \/
             (r = label /\ ~ gate_fails td cutoffs i key)).
Proof.
  intros Ec Ex Ek. unfold gate, df_getitem, series_getitem.
  rewrite Ec. simpl. rewrite Ex. simpl. rewrite Ek. simpl.
  assert (F : forall P : Prop, gate_fails td cutoffs i key ->
            ((marked key /\ (c < x)%Q) \/ (~ marked key /\ (x < c)%Q) -> P) -> P).
  { intros P (col' & x' & c' & Ec' & Ex' & Ek' & D) K.
    rewrite Ec in Ec'. inversion Ec'; subst col'.
    rewrite Ex in Ex'. inversion Ex'; subst x'.
    rewrite Ek in Ek'. inversion Ek'; subst c'. auto. }
  destruct (high_reject key) eqn:Hr.
  - apply high_reject_spec in Hr.
    destruct (Qltb c x) eqn:L; eexists; (split; [reflexivity |]).
    + left. split; [reflexivity |]. apply Qltb_lt in L.
      exists col, x, c. repeat (split; [assumption |]). left. split; assumption.
    + right. split; [reflexivity |]. intros G. apply (F False G).
      intros [[_ L'] | [N _]]; [| tauto].
      apply Qltb_lt in L'. congruence.
  - apply high_reject_false in Hr.
    destruct (Qltb x c) eqn:L; eexists; (split; [reflexivity |]).
    + left. split; [reflexivity |]. apply Qltb_lt in L.
      exists col, x, c. repeat (split; [assumption |]). right. split; assumption.
    + right. split; [reflexivity |]. intros G. apply (F False G).
      intros [[M _] | [_ L']]; [tauto |].
      apply Qltb_lt in L'. congruence.
Qed.

(** The inner loop is the conjunction of the gates: starting from [label],
    it ends at 0 exactly when [label] was 0 or some gate fails, and
    otherwise leaves [label] as it is. *)
Lemma row_gates_spec (td : DataFrame) (cutoffs : dict (option Q)) (i : nat) :
  forall (keys : list string) (label : Z),
    (forall key, In key keys ->
       exists col x c, dget (columns td) key = Some col /\
                       nth_error col i = Some x /\
                       dget cutoffs key = Some (Some c)) ->
    exists r, row_gates td cutoffs i keys label = Ok r /\
              (r = 0 <-> label = 0 \/ exists key, In key keys /\ gate_fails td cutoffs i key) /\
              (r = 0 \/ r = label).
Proof.
  induction keys as [| k keys IH]; intros label Hk; simpl.
  - exists label. split; [reflexivity |]. split; [| auto].
    split; [auto |]. intros [E | (key & [] & _)]. exact E.
  - destruct (Hk k (or_introl eq_refl)) as (col & x & c & Ec & Ex & Ek).
    destruct (gate_spec td cutoffs i k label col x c Ec Ex Ek) as (r1 & E1 & D).
    rewrite E1. simpl.
    destruct (IH r1) as (r & E & I0 & I1); [intros key I; apply Hk; now right |].
    exists r. split; [exact E |]. split.
    + rewrite I0. split.
      * intros [R1 | (key & I & G)].
        -- destruct D as [[_ G] | [D _]]; [right; exists k; simpl; auto | left; congruence].
        -- right. exists key. simpl. auto.
      * intros [L | (key & [Ek' | I] & G)].
        -- left. destruct D as [[D _] | [D _]]; congruence.
        -- subst key. left. destruct D as [[D _] | [_ N]]; [exact D | contradiction].
        -- right. exists key. auto.
    + destruct I1 as [I1 | I1]; [auto |].
      destruct D as [[D _] | [D _]]; [left | right]; congruence.
Qed.

Lemma label_rows_spec (td : DataFrame) (cutoffs : dict (option Q)) :
  forall (rows : list nat) (acc : list Z),
    (forall i, In i rows -> exists r, row_gates td cutoffs i (dkeys cutoffs) 1 = Ok r) ->
    exists ls, label_rows td cutoffs rows acc = Ok (acc ++ ls) /\
               Forall2 (fun i l => row_gates td cutoffs i (dkeys cutoffs) 1 = Ok l) rows ls.
Proof.
  induction rows as [| i rows IH]; intros acc Hr; simpl.
  - exists []. rewrite app_nil_r. split; [reflexivity | constructor].
  - destruct (Hr i (or_introl eq_refl)) as (r & Er). rewrite Er. simpl.
    destruct (IH (acc ++ [r])) as (ls & E & F); [intros j I; apply Hr; now right |].
    exists (r :: ls). rewrite <- app_assoc in E. split; [exact E |].
    constructor; assumption.
Qed.

Lemma Forall2_seq_nth {A : Type} (P : nat -> A -> Prop) :
  forall (n a : nat) (ls : list A),
    Forall2 P (seq a n) ls ->
    List.length ls = n /\
    forall i, (i < n)%nat -> exists l, nth_error ls i = Some l /\ P (a + i)%nat l.
Proof.
  induction n as [| n IH]; intros a ls F; simpl in F; inversion F; subst.
  - split; [reflexivity |]. intros i L. lia.
  - destruct (IH (S a) l' H3) as [Len Nth]. split; [simpl; now rewrite Len |].
    intros [| i] L; simpl.
    + exists y. rewrite Nat.add_0_r. auto.
    + destruct (Nth i) as (l & E & Pl); [lia |]. exists l.
      rewrite Nat.add_succ_r. auto.
Qed.

(** [add_labels] only writes [labels_train]. *)
Lemma add_labels_self (self self' : TrainClassifier) (td : DataFrame)
    (cutoffs : dict (option Q)) (labels : list Z) :
  add_labels self td cutoffs = Ok (labels, self') ->
  self' = set_labels_train self labels.
Proof.
  unfold add_labels. intros E. inv_ok. reflexivity.
Qed.

(** C2.  On a table whose columns cover the keys of the cutoff-set (one
    numeric cutoff per key), [add_labels] returns one label per row: the
    label is 0 exactly when at least one gate fails and 1 exactly when the
    row passes every gate, a gate failing when the score strictly exceeds
    the cutoff for a feature whose name contains 'CrossEntropyFilter' or
    'WordAlign' and when it is strictly below the cutoff for any other
    feature; computing the labels again with the same cutoffs gives the
    same labels. *)
Theorem add_labels_gates (self : TrainClassifier) (td : DataFrame)
    (cutoffs : dict (option Q)) :
  (forall key, In key (dkeys cutoffs) ->
     exists col c, dget (columns td) key = Some col /\
                   List.length col = index_len td /\
                   dget cutoffs key = Some (Some c)) ->
  exists labels self',
    add_labels self td cutoffs = Ok (labels, self') /\
    List.length labels = index_len td /\
    (forall i, (i < index_len td)%nat ->
       (nth_error labels i = Some 0 <->
        exists key, In key (dkeys cutoffs) /\ gate_fails td cutoffs i key) /\
       (nth_error labels i = Some 1 <->
        forall key, In key (dkeys cutoffs) -> ~ gate_fails td cutoffs i key)) /\
    add_labels self' td cutoffs = Ok (labels, self').
Proof.
  intros Hwf.
  assert (Hrow : forall i, (i < index_len td)%nat ->
            exists r, row_gates td cutoffs i (dkeys cutoffs) 1 = Ok r /\
              (r = 0 <-> 1 = 0 \/ exists key, In key (dkeys cutoffs) /\ gate_fails td cutoffs i key) /\
              (r = 0 \/ r = 1)).
  { intros i L. apply row_gates_spec. intros key I.
    destruct (Hwf key I) as (col & c & Ec & Len & Ek).
    destruct (nth_error col i) as [x |] eqn:Ex.
    - exists col, x, c. auto.
    - apply nth_error_None in Ex. lia. }
  destruct (label_rows_spec td cutoffs (seq 0 (index_len td)) []) as (ls & E & F).
  { intros i I. apply in_seq in I. destruct (Hrow i) as (r & Er & _); [lia | eauto]. }
  simpl in E.
  apply Forall2_seq_nth in F. destruct F as [Len Nth].
  exists ls, (set_labels_train self ls).
  unfold add_labels. rewrite E. simpl.
  split; [reflexivity |]. split; [exact Len |]. split; [| reflexivity].
  intros i L. destruct (Nth i L) as (l & El & Er). simpl in Er.
  destruct (Hrow i L) as (r & Er' & I0 & I1).
  rewrite Er in Er'. inversion Er'; subst r. rewrite El.
  split; split.
  - intros G. assert (Z0 : l = 0) by congruence.
    apply I0 in Z0. destruct Z0 as [C | G']; [discriminate | exact G'].
  - intros G. f_equal. apply I0. now right.
  - intros G key I Fk. assert (Z1 : l = 1) by congruence.
    assert (C : l = 0) by (apply I0; right; eauto). congruence.
  - intros G. destruct I1 as [Z0 | Z1]; [| congruence].
    apply I0 in Z0. destruct Z0 as [C | (key & I & Fk)]; [discriminate |].
    exfalso. exact (G key I Fk).
Qed.

(** The theorem at the sample table with cutoffs 0.25 and 4. *)
Lemma add_labels_gates_witness :
  (forall key, In key ["A"; "CrossEntropyFilter.0"] ->
     exists col c, dget (columns train_ce) key = Some col /\
                   List.length col = index_len train_ce /\
                   dget [("A", Some (1 # 4)); ("CrossEntropyFilter.0", Some 4)]%Q key
                     = Some (Some c)) /\
  exists labels self',
    add_labels (self_of train_ce None None) train_ce
      [("A", Some (1 # 4)); ("CrossEntropyFilter.0", Some 4)]%Q = Ok (labels, self') /\
    List.length labels = index_len train_ce /\
    (forall i, (i < index_len train_ce)%nat ->
       (nth_error labels i = Some 0 <->
        exists key, In key ["A"; "CrossEntropyFilter.0"] /\
          gate_fails train_ce [("A", Some (1 # 4)); ("CrossEntropyFilter.0", Some 4)]%Q i key) /\
       (nth_error labels i = Some 1 <->
        forall key, In key ["A"; "CrossEntropyFilter.0"] ->
          ~ gate_fails train_ce [("A", Some (1 # 4)); ("CrossEntropyFilter.0", Some 4)]%Q i key)) /\
    add_labels self' train_ce
      [("A", Some (1 # 4)); ("CrossEntropyFilter.0", Some 4)]%Q = Ok (labels, self').
Proof.
  assert (W : forall key, In key ["A"; "CrossEntropyFilter.0"] ->
     exists col c, dget (columns train_ce) key = Some col /\
                   List.length col = index_len train_ce /\
                   dget [("A", Some (1 # 4)); ("CrossEntropyFilter.0", Some 4)]%Q key
                     = Some (Some c)).
  { intros key [E | [E | []]]; subst key.
    - exists [1 # 10; 2 # 10; 3 # 10; 4 # 10]%Q, (1 # 4)%Q. repeat split; reflexivity.
    - exists [5; 1; 2; 8]%Q, 4%Q. repeat split; reflexivity. }
  split; [exact W |].
  exact (add_labels_gates (self_of train_ce None None) train_ce
           [("A", Some (1 # 4)); ("CrossEntropyFilter.0", Some 4)]%Q W).
Defined.

(** C6, as the code has it.  [add_labels] leaves the training table, the
    discard estimate, the dev table and the dev labels of [self] as they
    were; it has one side effect, the attribute [labels_train], which
    holds the returned labels afterwards. *)
Theorem add_labels_frame (self self' : TrainClassifier) (td : DataFrame)
    (cutoffs : dict (option Q)) (labels : list Z) :
  add_labels self td cutoffs = Ok (labels, self') ->
  df_training_data self' = df_training_data self /\
  discard_estimate self' = discard_estimate self /\
  dev_data self' = dev_data self /\
  dev_labels self' = dev_labels self /\
  labels_train self' = Some labels.
Proof.
  intros E. apply add_labels_self in E. subst self'. simpl. auto.
Qed.

Lemma add_labels_frame_witness :
  add_labels (self_of train1 (Some dev1) None) train1 [("A", Some (15 # 100)%Q)]
    = Ok ([0; 1; 1; 1], set_labels_train (self_of train1 (Some dev1) None) [0; 1; 1; 1]) /\
  df_training_data (set_labels_train (self_of train1 (Some dev1) None) [0; 1; 1; 1])
    = df_training_data (self_of train1 (Some dev1) None) /\
  discard_estimate (set_labels_train (self_of train1 (Some dev1) None) [0; 1; 1; 1])
    = discard_estimate (self_of train1 (Some dev1) None) /\
  dev_data (set_labels_train (self_of train1 (Some dev1) None) [0; 1; 1; 1])
    = dev_data (self_of train1 (Some dev1) None) /\
  dev_labels (set_labels_train (self_of train1 (Some dev1) None) [0; 1; 1; 1])
    = dev_labels (self_of train1 (Some dev1) None) /\
  labels_train (set_labels_train (self_of train1 (Some dev1) None) [0; 1; 1; 1])
    = Some [0; 1; 1; 1].
Proof.
  split; [reflexivity |].
  apply (add_labels_frame (self_of train1 (Some dev1) None) _ train1
           [("A", Some (15 # 100)%Q)] [0; 1; 1; 1]).
  reflexivity.
Defined.

(** C6 as stated fails: a call of [add_labels] changes [self]. *)
Lemma add_labels_side_effect :
  ~ (forall (self self' : TrainClassifier) (td : DataFrame)
            (cutoffs : dict (option Q)) (labels : list Z),
       add_labels self td cutoffs = Ok (labels, self') -> self' = self).
Proof.
  intros C.
  specialize (C (self_of train1 (Some dev1) None)
                (set_labels_train (self_of train1 (Some dev1) None) [0; 1; 1; 1])
                train1 [("A", Some (15 # 100)%Q)] [0; 1; 1; 1] eq_refl).
  discriminate C.
Qed.

(** ** The criteria *)

Section CriteriaFacts.
Context {SkModel V : Type} `{FloatOps V} `{Services SkModel V}.

Lemma Vmax_cases (a b : V) :
  (Vltb a b = true /\ Vmax a b = b) \/ (Vltb a b = false /\ Vmax a b = a).
Proof.
  unfold Vmax. destruct (Vltb a b); auto.
Qed.

Lemma map_fst_swap (probs : list (Q * Q)) : map fst (swap_columns probs) = map snd probs.
Proof.
  unfold swap_columns. rewrite map_map. reflexivity.
Qed.

Lemma map_snd_swap (probs : list (Q * Q)) : map snd (swap_columns probs) = map fst probs.
Proof.
  unfold swap_columns. rewrite map_map. reflexivity.
Qed.

(** C9.  When scikit-learn answers every call, [get_roc_auc] returns the
    maximum of the two ROC AUC values computed against the stored dev
    labels, one from the class-0 probability column and one from the
    class-1 column; a model whose two probability columns are exchanged
    gets the same criterion value. *)
Theorem get_roc_auc_max (self : TrainClassifier) (model : Classifier SkModel)
    (dev : DataFrame) (pred : list Z) (probs : list (Q * Q)) (dl : Series)
    (sc : Q) (auc0 auc1 : V) :
  (forall a b, Vltb a b = true -> Vltb b a = false) ->
  predict (classifier model) dev = Ok pred ->
  predict_proba (classifier model) dev = Ok probs ->
  dev_labels self = Some dl ->
  score (classifier model) dev dl = Ok sc ->
  roc_auc_score dl (map fst probs) = Ok auc0 ->
  roc_auc_score dl (map snd probs) = Ok auc1 ->
  exists r,
    get_roc_auc self model dev = Ok r /\
    (r = auc0 \/ r = auc1) /\
    Vltb r auc0 = false /\ Vltb r auc1 = false /\
    forall (model' : Classifier SkModel) (pred' : list Z) (sc' : Q),
      predict (classifier model') dev = Ok pred' ->
      predict_proba (classifier model') dev = Ok (swap_columns probs) ->
      score (classifier model') dev dl = Ok sc' ->
      exists r',
        get_roc_auc self model' dev = Ok r' /\
        Vltb r r' = false /\ Vltb r' r = false /\
        ((forall a b, Vltb a b = false -> Vltb b a = false -> a = b) -> r' = r).
Proof.
  intros Asym Ep Epp Edl Esc E0 E1.
  assert (Irr : forall a, Vltb a a = false).
  { intros a. destruct (Vltb a a) eqn:E; [| reflexivity].
    pose proof (Asym a a E). congruence. }
  exists (Vmax auc0 auc1).
  unfold get_roc_auc. rewrite Ep, Epp, Edl. simpl. rewrite Esc, E0, E1. simpl.
  split; [reflexivity |].
  destruct (Vmax_cases auc0 auc1) as [[L M] | [L M]]; rewrite M.
  - split; [auto |]. split; [now apply Asym |]. split; [apply Irr |].
    intros model' pred' sc' Ep' Epp' Esc'.
    exists (Vmax auc1 auc0).
    rewrite Ep', Epp', Esc'. simpl.
    rewrite map_fst_swap, map_snd_swap, E0, E1. simpl.
    split; [reflexivity |].
    unfold Vmax. rewrite (Asym _ _ L). auto.
  - split; [auto |]. split; [apply Irr |]. split; [exact L |].
    intros model' pred' sc' Ep' Epp' Esc'.
    exists (Vmax auc1 auc0).
    rewrite Ep', Epp', Esc'. simpl.
    rewrite map_fst_swap, map_snd_swap, E0, E1. simpl.
    split; [reflexivity |].
    unfold Vmax. destruct (Vltb auc1 auc0) eqn:L'; auto.
Qed.
End CriteriaFacts.

Lemma get_roc_auc_max_witness :
  (forall a b : Q, Vltb a b = true -> Vltb b a = false) /\
  predict ["A"] {| index_len := 4; columns := [("A", [1 # 10; 2 # 10; 3 # 10; 4 # 10])]%Q |}
    = Ok [0; 0; 0; 0] /\
  exists r,
    get_roc_auc (self_of train1 (Some dev1) None)
      {| classname := "LogisticRegression"; classifier := ["A"]; features := ["A"] |}
      {| index_len := 4; columns := [("A", [1 # 10; 2 # 10; 3 # 10; 4 # 10])]%Q |} = Ok r /\
    (r = 0%Q \/ r = 1%Q) /\
    Vltb r 0%Q = false /\ Vltb r 1%Q = false /\
    forall (model' : Classifier Model) (pred' : list Z) (sc' : Q),
      predict (classifier model')
        {| index_len := 4; columns := [("A", [1 # 10; 2 # 10; 3 # 10; 4 # 10])]%Q |} = Ok pred' ->
      predict_proba (classifier model')
        {| index_len := 4; columns := [("A", [1 # 10; 2 # 10; 3 # 10; 4 # 10])]%Q |}
        = Ok (swap_columns [(9 # 10, 1 # 10); (4 # 5, 1 # 5); (7 # 10, 3 # 10); (3 # 5, 2 # 5)]%Q) ->
      score (classifier model')
        {| index_len := 4; columns := [("A", [1 # 10; 2 # 10; 3 # 10; 4 # 10])]%Q |}
        [0; 0; 1; 1]%Q = Ok sc' ->
      exists r',
        get_roc_auc (self_of train1 (Some dev1) None) model'
          {| index_len := 4; columns := [("A", [1 # 10; 2 # 10; 3 # 10; 4 # 10])]%Q |} = Ok r' /\
        Vltb r r' = false /\ Vltb r' r = false /\
        ((forall a b : Q, Vltb a b = false -> Vltb b a = false -> a = b) -> r' = r).
Proof.
  split; [exact Qltb_asym |]. split; [reflexivity |].
  apply (get_roc_auc_max (self_of train1 (Some dev1) None)
           {| classname := "LogisticRegression"; classifier := ["A"]; features := ["A"] |}
           {| index_len := 4; columns := [("A", [1 # 10; 2 # 10; 3 # 10; 4 # 10])]%Q |}
           [0; 0; 0; 0]
           [(9 # 10, 1 # 10); (4 # 5, 1 # 5); (7 # 10, 3 # 10); (3 # 5, 2 # 5)]%Q
           [0; 0; 1; 1]%Q (1 # 2)%Q 0%Q 1%Q);
    [exact Qltb_asym | reflexivity ..].
Defined.

(** The residual sum of squares: the built-in [sum] over the element-wise
    squares is the spec's sum over the rows. *)
Lemma fold_left_add_acc (l : list Z) (a : Z) : fold_left Z.add l a = a + fold_left Z.add l 0.
Proof.
  revert a. induction l as [| x l IH]; intros a; simpl; [lia |].
  rewrite (IH (a + x)), (IH x). lia.
Qed.

Lemma sum_sq_resid_cons (x y : Z) (a b : list Z) (n : nat) :
  sum_sq_resid (x :: a) (y :: b) (S n) = (x - y) ^ 2 + sum_sq_resid a b n.
Proof.
  induction n as [| n IH].
  - simpl. lia.
  - change (sum_sq_resid (x :: a) (y :: b) (S (S n)))
      with (sum_sq_resid (x :: a) (y :: b) (S n) + (nth n a 0 - nth n b 0) ^ 2).
    rewrite IH. simpl sum_sq_resid. lia.
Qed.

Lemma py_sum_zip_sub (a b : list Z) :
  List.length a = List.length b ->
  py_sum (map (fun r => r ^ 2) (zip_sub a b)) = sum_sq_resid a b (List.length a).
Proof.
  revert b. induction a as [| x a IH]; intros [| y b] L; simpl in L; try discriminate.
  - reflexivity.
  - simpl List.length. rewrite sum_sq_resid_cons, <- IH by lia.
    unfold py_sum. simpl. rewrite fold_left_add_acc. lia.
Qed.

Lemma sum_sq_resid_nonneg (a b : list Z) (n : nat) : 0 <= sum_sq_resid a b n.
Proof.
  induction n as [| n IH]; simpl; [lia |].
  assert (0 <= (nth n a 0 - nth n b 0) ^ 2) by (apply Z.pow_even_nonneg; exists 1; reflexivity).
  lia.
Qed.

Section RealCriteria.
Context {SkModel : Type} `{Services SkModel R}.

Lemma math_log_pos (x : R) : (0 < x)%R -> math_log x = Ok (ln x).
Proof.
  intros P. unfold math_log. simpl. destruct (Rlt_dec 0 x); [reflexivity | contradiction].
Qed.

(** C8.  With the stored training labels [lt] and the model's predictions
    [y_hat] on the snapshot (one per label), the SSE is the sum of the
    squared residuals between [lt] and [y_hat] plus 0.01, whatever the
    [labels] argument is; the AIC is 2k - 2 ln(SSE) with k the number of
    columns of the snapshot, and the BIC is ln(n) k - 2 ln(SSE) with n the
    number of rows of the snapshot (a snapshot with at least one row). *)
Theorem criteria_formulas (self : TrainClassifier) (model : Classifier SkModel)
    (td : DataFrame) (labels lt y_hat : list Z) :
  labels_train self = Some lt ->
  predict (classifier model) td = Ok y_hat ->
  List.length lt = List.length y_hat ->
  let k := INR (List.length (columns td)) in
  let n := INR (index_len td) in
  let SSE := (IZR (sum_sq_resid lt y_hat (List.length lt)) + 1 / 100)%R in
  get_sse self model td labels = Ok SSE /\
  get_aic self model td labels = Ok (2 * k - 2 * ln SSE)%R /\
  ((0 < index_len td)%nat ->
   get_bic self model td labels = Ok (ln n * k - 2 * ln SSE)%R).
Proof.
  intros El Ep Len k n SSE.
  assert (Es : get_sse self model td labels = Ok SSE).
  { unfold get_sse. rewrite Ep, El. simpl.
    unfold np_sub. rewrite (proj2 (Nat.eqb_eq _ _) Len). simpl.
    rewrite py_sum_zip_sub by assumption.
    unfold SSE, Q2R. simpl. apply f_equal. Lra.lra. }
  assert (Ps : (0 < SSE)%R).
  { unfold SSE. pose proof (sum_sq_resid_nonneg lt y_hat (List.length lt)) as P.
    apply IZR_le in P. Lra.lra. }
  split; [exact Es |]. split.
  - unfold get_aic. rewrite Es. cbn [bind]. rewrite (math_log_pos _ Ps).
    cbn [bind Vsub Vmul V_of_Z R_ops].
    unfold shape1, k. rewrite mult_IZR, <- INR_IZR_INZ. reflexivity.
  - intros Pn. unfold get_bic. rewrite Es. cbn [bind].
    assert (Pn' : (0 < V_of_Z (shape0 td))%R).
    { unfold shape0. cbn [V_of_Z R_ops]. rewrite <- INR_IZR_INZ. now apply lt_0_INR. }
    rewrite (math_log_pos _ Pn'). cbn [bind]. rewrite (math_log_pos _ Ps).
    cbn [bind Vsub Vmul V_of_Z R_ops].
    unfold shape0, shape1, k, n. rewrite <- !INR_IZR_INZ. reflexivity.
Qed.
End RealCriteria.

Lemma criteria_formulas_witness :
  labels_train (set_labels_train (self_of train1 (Some dev1) None) [0; 1; 1; 1])
    = Some [0; 1; 1; 1] /\
  Sample.predict_mean ["A"] train1 = Ok [0; 0; 0; 0] /\
  (0 < index_len train1)%nat /\
  let self := set_labels_train (self_of train1 (Some dev1) None) [0; 1; 1; 1] in
  let model := {| classname := "LogisticRegression"; classifier := ["A"]; features := ["A"] |} in
  get_sse (H0 := real_services) self model train1 [] = Ok (IZR 3 + 1 / 100)%R /\
  get_aic (H0 := real_services) self model train1 []
    = Ok (2 * INR 1 - 2 * ln (IZR 3 + 1 / 100))%R /\
  get_bic (H0 := real_services) self model train1 []
    = Ok (ln (INR 4) * INR 1 - 2 * ln (IZR 3 + 1 / 100))%R.
Proof.
  split; [reflexivity |]. split; [reflexivity |]. split; [simpl; lia |].
  intros self model.
  destruct (criteria_formulas (H := real_services) self model train1 []
              [0; 1; 1; 1] [0; 0; 0; 0] eq_refl eq_refl eq_refl) as (Es & Ea & Eb).
  split; [exact Es |]. split; [exact Ea |].
  apply Eb. simpl. lia.
Defined.

(** ** The search *)

Section SearchFacts.
Context {SkModel V : Type} `{FloatOps V} `{Services SkModel V}.

#[local] Abbreviation Frame := (@Frame SkModel V).
#[local] Abbreviation Sweep := (@Sweep SkModel V).
#[local] Abbreviation Trial := (@Trial SkModel V).
#[local] Abbreviation config := (@config SkModel V).

(** What a trial that completes has done. *)
Lemma trial_inv (criterion key : string) (sw sw' : Sweep) :
  trial criterion key sw = Ok sw' ->
  exists dev d zero tr dv cc self' lv LR cv,
    dev_data (self (frame sw)) = Some dev /\
    dget (discards (frame sw)) key = Some d /\
    ((zero = true /\ Qeq_bool d 0 = true /\
      (exists c, df_pop (df_training_data (self (frame sw))) key = Ok (c, tr)) /\
      (exists c, df_pop dev key = Ok (c, dv)) /\
      (exists c, dpop (cutoffs (frame sw)) key = Some (c, cc)) /\
      labels (frame sw) = Some lv /\ self' = self (frame sw))
     \/
     (zero = false /\ Qeq_bool d 0 = false /\
      tr = df_training_data (self (frame sw)) /\ dv = dev /\
      set_cutoffs tr (discards (frame sw)) (cutoffs (frame sw)) = Ok cc /\
      add_labels (self (frame sw)) tr cc = Ok (lv, self'))) /\
    train_logreg tr lv = Ok LR /\
    crit_value_of criterion self' LR tr dv lv = Ok cv /\
    let t := trial_record criterion key sw zero tr dv cc lv LR cv in
    sw' = {| frame :=
               {| self := self';
                  cutoffs := cutoffs (frame sw);
                  discards := dset (discards (frame sw)) key
                                (round2 (discard sw - (1 # 100)));
                  best_model := if t_win t then Some (LR, cv, discards_obj)
                                else best_model (frame sw);
                  labels := Some lv;
                  history := t :: history (frame sw) |};
             discard := (discard sw - (1 # 100))%Q;
             best_discard := if t_win t then round2 (discard sw) else best_discard sw;
             remove_column := if t_win t && zero then true else remove_column sw |}.
Proof.
  unfold trial. intros E.
  apply bind_ok in E. destruct E as (dev & Edev & E). apply bound_ok in Edev.
  apply bind_ok in E. destruct E as (d & Ed & E). apply bound_ok in Ed.
  apply bind_ok in E.
  destruct E as ([[[[[zero tr] dv] cc] lbls] self'] & Ebr & E).
  apply bind_ok in E. destruct E as (lv & Elv & E). apply bound_ok in Elv. subst lbls.
  apply bind_ok in E. destruct E as (LR & ELR & E).
  apply bind_ok in E. destruct E as (cv & Ecv & E).
  exists dev, d, zero, tr, dv, cc, self', lv, LR, cv.
  split; [exact Edev |]. split; [exact Ed |].
  split.
  - destruct (Qeq_bool d 0) eqn:Z.
    + left.
      apply bind_ok in Ebr. destruct Ebr as ([c1 tr1] & E1 & Ebr).
      apply bind_ok in Ebr. destruct Ebr as ([c2 dv1] & E2 & Ebr).
      apply bind_ok in Ebr. destruct Ebr as ([c3 cc1] & E3 & Ebr).
      apply bound_ok in E3. inversion Ebr; subst.
      repeat split; eauto.
    + right.
      apply bind_ok in Ebr. destruct Ebr as (cc1 & E1 & Ebr).
      apply bind_ok in Ebr. destruct Ebr as ([l self1] & E2 & Ebr).
      inversion Ebr; subst.
      repeat split; auto.
  - split; [exact ELR |]. split; [exact Ecv |].
    inversion E. reflexivity.
Qed.

(** A trial leaves the live tables and the live cutoff-set alone. *)
Lemma trial_tables (criterion key : string) (sw sw' : Sweep) :
  trial criterion key sw = Ok sw' ->
  df_training_data (self (frame sw')) = df_training_data (self (frame sw)) /\
  dev_data (self (frame sw')) = dev_data (self (frame sw)) /\
  cutoffs (frame sw') = cutoffs (frame sw) /\
  exists d, dget (discards (frame sw)) key = Some d /\
    discards (frame sw') = dset (discards (frame sw)) key (round2 (discard sw - (1 # 100))) /\
    discard sw' = (discard sw - (1 # 100))%Q.
Proof.
  intros E. apply trial_inv in E.
  destruct E as (dev & d & zero & tr & dv & cc & self' & lv & LR & cv &
                 Edev & Ed & Br & _ & _ & E).
  simpl in E. subst sw'. simpl.
  assert (S : df_training_data self' = df_training_data (self (frame sw)) /\
              dev_data self' = dev_data (self (frame sw))).
  { destruct Br as [(_ & _ & _ & _ & _ & _ & Es) | (_ & _ & _ & _ & _ & Ea)].
    - subst. auto.
    - apply add_labels_self in Ea. subst self'. auto. }
  destruct S as [S1 S2]. repeat split; eauto.
Qed.

(** What the end of a sweep has done. *)
Lemma sweep_end_inv (key : string) (sw : Sweep) (fr : Frame) :
  sweep_end key sw = Ok fr ->
  exists self' cutoffs',
    ((remove_column sw = true /\
      exists c1 tr dev c2 dv c3,
        df_pop (df_training_data (self (frame sw))) key = Ok (c1, tr) /\
        dev_data (self (frame sw)) = Some dev /\
        df_pop dev key = Ok (c2, dv) /\
        dpop (cutoffs (frame sw)) key = Some (c3, cutoffs') /\
        self' = set_tables (self (frame sw)) tr (Some dv))
     \/
     (remove_column sw = false /\
      self' = self (frame sw) /\ cutoffs' = cutoffs (frame sw))) /\
    fr = {| self := self';
            cutoffs := cutoffs';
            discards := dset (discards (frame sw)) key (best_discard sw);
            best_model := best_model (frame sw);
            labels := labels (frame sw);
            history := history (frame sw) |}.
Proof.
  unfold sweep_end. intros E.
  apply bind_ok in E. destruct E as ([self' cutoffs'] & Eb & E).
  exists self', cutoffs'. split; [| inversion E; reflexivity].
  destruct (remove_column sw).
  - left. split; [reflexivity |].
    apply bind_ok in Eb. destruct Eb as ([c1 tr] & E1 & Eb).
    apply bind_ok in Eb. destruct Eb as (dev & E2 & Eb). apply bound_ok in E2.
    apply bind_ok in Eb. destruct Eb as ([c2 dv] & E3 & Eb).
    apply bind_ok in Eb. destruct Eb as ([c3 cc] & E4 & Eb). apply bound_ok in E4.
    inversion Eb; subst.
    exists c1, tr, dev, c2, dv, c3. auto.
  - right. inversion Eb. auto.
Qed.

Lemma sweep_init_inv (key : string) (fr : Frame) (sw : Sweep) :
  sweep_init key fr = Ok sw ->
  exists d, dget (discards fr) key = Some d /\
    sw = {| frame := fr; discard := d; best_discard := d; remove_column := false |}.
Proof.
  unfold sweep_init. intros E.
  apply bind_ok in E. destruct E as (d & Ed & E). apply bound_ok in Ed.
  exists d. split; [exact Ed | inversion E; reflexivity].
Qed.

(** The big-step functions follow the program points. *)
Lemma trials_reach (criterion : string) (self0 : TrainClassifier)
    (key : string) (todo : list string) :
  forall (n j : nat) (sw sw' : Sweep),
    reach criterion self0 (AtInner key todo j sw) ->
    (j + n <= 11)%nat ->
    trials n criterion key sw = Ok sw' ->
    reach criterion self0 (AtInner key todo (j + n) sw').
Proof.
  induction n as [| n IH]; intros j sw sw' R L E; simpl in E.
  - inversion E; subst. now rewrite Nat.add_0_r.
  - apply bind_ok in E. destruct E as (sw1 & E1 & E).
    rewrite Nat.add_succ_r, <- Nat.add_succ_l.
    apply (IH (S j) sw1); [| lia | exact E].
    apply (reach_trial _ _ key todo j sw); [exact R | lia | exact E1].
Qed.

Lemma sweep_reach (criterion : string) (self0 : TrainClassifier)
    (key : string) (todo : list string) (fr fr' : Frame) :
  reach criterion self0 (AtOuter (key :: todo) fr) ->
  sweep criterion key fr = Ok fr' ->
  reach criterion self0 (AtOuter todo fr').
Proof.
  intros R E. unfold sweep in E.
  apply bind_ok in E. destruct E as (sw & E0 & E).
  apply bind_ok in E. destruct E as (sw' & E1 & E).
  apply (reach_leave _ _ key todo sw'); [| exact E].
  apply (trials_reach criterion self0 key todo 11 0 sw); [| lia | exact E1].
  now apply (reach_enter _ _ key todo fr).
Qed.

Lemma outer_reach (criterion : string) (self0 : TrainClassifier) :
  forall (todo : list string) (fr fr' : Frame),
    reach criterion self0 (AtOuter todo fr) ->
    outer criterion todo fr = Ok fr' ->
    reach criterion self0 (AtOuter [] fr').
Proof.
  induction todo as [| key todo IH]; intros fr fr' R E; simpl in E.
  - inversion E; subst. exact R.
  - apply bind_ok in E. destruct E as (fr1 & E1 & E).
    apply (IH fr1); [| exact E].
    now apply (sweep_reach criterion self0 key todo fr).
Qed.

Lemma search_reach (criterion : string) (self0 : TrainClassifier) (fr : Frame) :
  search criterion self0 = Ok fr ->
  reach criterion self0 (AtOuter [] fr).
Proof.
  unfold search. apply outer_reach. constructor.
Qed.
End SearchFacts.

(** *** Stale labels *)

Section LabelReuse.
Context {SkModel V : Type} `{FloatOps V} `{Services SkModel V}.

#[local] Abbreviation Frame := (@Frame SkModel V).
#[local] Abbreviation Sweep := (@Sweep SkModel V).
#[local] Abbreviation Trial := (@Trial SkModel V).




(** A zero trial reached before any trial computed labels reads the local
    [labels] unbound. *)
Lemma zero_trial_unbound_labels (criterion key : string) (sw : Sweep)
    (dev : DataFrame) (d : Q) (c1 c2 : Series) (tr dv : DataFrame)
    (c3 : option Q) (cc : dict (option Q)) :
  dev_data (self (frame sw)) = Some dev ->
  dget (discards (frame sw)) key = Some d ->
  Qeq_bool d 0 = true ->
  df_pop (df_training_data (self (frame sw))) key = Ok (c1, tr) ->
  df_pop dev key = Ok (c2, dv) ->
  dpop (cutoffs (frame sw)) key = Some (c3, cc) ->
  labels (frame sw) = None ->
  trial criterion key sw = Err UnboundLocalError.
Proof.
  intros Edev Ed Z P1 P2 P3 El. unfold trial.
  rewrite Edev, Ed. cbn [bound bind]. rewrite Z, P1. cbn [bind].
  rewrite P2. cbn [bind]. rewrite P3. cbn [bound bind]. rewrite El. reflexivity.
Qed.

End LabelReuse.

(** *** Key sets *)

Section KeySets.
Context {SkModel V : Type} `{FloatOps V} `{Services SkModel V}.

#[local] Abbreviation Frame := (@Frame SkModel V).
#[local] Abbreviation Sweep := (@Sweep SkModel V).
#[local] Abbreviation config := (@config SkModel V).
#[local] Abbreviation start := (@search_start SkModel V).

(** A configuration entered from the start of the search. *)
Lemma reach_trials_from_start (criterion : string) (self0 : TrainClassifier)
    (key : string) (todo : list string) (n : nat) (sw0 sw : Sweep) :
  dkeys (discards (start self0)) = key :: todo ->
  sweep_init key (start self0) = Ok sw0 ->
  trials n criterion key sw0 = Ok sw ->
  (n <= 11)%nat ->
  reach criterion self0 (AtInner key todo n sw).
Proof.
  intros Ek E0 En L.
  apply (trials_reach criterion self0 key todo n 0 sw0 sw); [| lia | exact En].
  apply (reach_enter _ _ key todo (start self0)); [| exact E0].
  rewrite <- Ek. constructor.
Qed.

(** The loop head after the first sweep. *)
Lemma reach_after_first_sweep (criterion : string) (self0 : TrainClassifier)
    (key : string) (todo : list string) (fr : Frame) :
  dkeys (discards (start self0)) = key :: todo ->
  sweep criterion key (start self0) = Ok fr ->
  reach criterion self0 (AtOuter todo fr).
Proof.
  intros Ek E.
  apply (sweep_reach criterion self0 key todo (start self0)); [| exact E].
  rewrite <- Ek. constructor.
Qed.

Lemma discards_keys_reach (criterion : string) (self0 : TrainClassifier) (c : config) :
  reach criterion self0 c ->
  discards_keys_inv (dkeys (discards (start self0))) c.
Proof.
  unfold discards_keys_inv.
  induction 1 as [| key todo fr sw R IH E | key todo j sw sw' R IH L E
                  | key todo sw fr R IH E]; simpl in *.
  - split; [reflexivity | apply incl_refl].
  - apply sweep_init_inv in E. destruct E as (d & _ & E). subst sw. simpl.
    destruct IH as [K I]. split; [exact K |].
    split; [apply I; now left | intros x Hx; apply I; now right].
  - destruct IH as [K I]. split; [| exact I].
    apply trial_tables in E. destruct E as (_ & _ & _ & d & Ed & Ds & _).
    rewrite Ds, dkeys_dset_in; [exact K |]. now apply dget_in_keys in Ed.
  - destruct IH as [K [Ik I]].
    apply sweep_end_inv in E. destruct E as (self' & cutoffs' & _ & E).
    subst fr. simpl. split; [| exact I].
    rewrite dkeys_dset_in; [exact K |]. now rewrite K.
Qed.

Lemma df_keys_pop (df df' : DataFrame) (key : string) (c : Series) :
  df_pop df key = Ok (c, df') -> df_keys df' = remove_key key (df_keys df).
Proof.
  unfold df_pop, df_keys. destruct (dpop (columns df) key) as [[s cols] |] eqn:E;
    [| discriminate].
  intros G. inversion G; subst. simpl. now apply dkeys_dpop in E.
Qed.

Lemma cutoffs_keys_reach (criterion : string) (self0 : TrainClassifier) (c : config) :
  NoDup (df_keys (df_training_data self0)) ->
  reach criterion self0 c ->
  cutoffs_keys_inv (df_keys (df_training_data self0)) c.
Proof.
  intros ND. unfold cutoffs_keys_inv.
  induction 1 as [| key todo fr sw R IH E | key todo j sw sw' R IH L E
                  | key todo sw fr R IH E]; simpl in *.
  - split; [now apply dkeys_fromkeys | apply incl_refl].
  - apply sweep_init_inv in E. destruct E as (d & _ & E). subst sw. exact IH.
  - apply trial_tables in E. destruct E as (T & _ & C & _).
    rewrite T, C. exact IH.
  - destruct IH as [K I].
    apply sweep_end_inv in E. destruct E as (self' & cutoffs' & Br & E).
    subst fr. simpl.
    destruct Br as [(_ & c1 & tr & dev & c2 & dv & c3 & P1 & _ & _ & P4 & Es)
                   | (_ & Es & Ec)]; subst; simpl.
    + apply df_keys_pop in P1. apply dkeys_dpop in P4.
      rewrite P1, P4, K. split; [reflexivity |].
      intros x Hx. apply I. now apply in_remove_key in Hx.
    + auto.
Qed.

(** C5, as the code has it.  At every loop head of the search the
    cutoff-set has exactly the keys of the live training table; the
    discard-set keeps the keys of the training table the search started
    with, so it contains the keys of the live table, and a feature that
    was permanently removed stays in the discard-set. *)
Theorem search_key_sets (criterion : string) (self0 : TrainClassifier) (c : config) :
  NoDup (df_keys (df_training_data self0)) ->
  reach criterion self0 c ->
  dkeys (cutoffs (frame_of c)) = df_keys (df_training_data (self (frame_of c))) /\
  dkeys (discards (frame_of c)) = df_keys (df_training_data self0) /\
  incl (df_keys (df_training_data (self (frame_of c)))) (dkeys (discards (frame_of c))).
Proof.
  intros ND R.
  destruct (cutoffs_keys_reach criterion self0 c ND R) as [K I].
  destruct (discards_keys_reach criterion self0 c R) as [D _].
  simpl in D. rewrite dkeys_fromkeys in D by assumption.
  rewrite D. auto.
Qed.
End KeySets.


Lemma search_key_sets_witness :
  NoDup (df_keys (df_training_data self2)) /\
  reach "roc_auc" self2 (AtOuter ["B"] (after_sweep self2 "A")) /\
  dkeys (cutoffs (frame_of (AtOuter ["B"] (after_sweep self2 "A"))))
    = df_keys (df_training_data (self (frame_of (AtOuter ["B"] (after_sweep self2 "A"))))) /\
  dkeys (discards (frame_of (AtOuter ["B"] (after_sweep self2 "A"))))
    = df_keys (df_training_data self2) /\
  incl (df_keys (df_training_data (self (frame_of (AtOuter ["B"] (after_sweep self2 "A"))))))
       (dkeys (discards (frame_of (AtOuter ["B"] (after_sweep self2 "A"))))).
Proof.
  assert (ND : NoDup (df_keys (df_training_data self2))).
  { repeat constructor; simpl; intuition discriminate. }
  assert (R : reach "roc_auc" self2 (AtOuter ["B"] (after_sweep self2 "A"))).
  { apply (reach_after_first_sweep "roc_auc" self2 "A" ["B"]);
      [reflexivity | vm_compute; reflexivity]. }
  split; [exact ND |]. split; [exact R |].
  exact (search_key_sets "roc_auc" self2 (AtOuter ["B"] (after_sweep self2 "A")) ND R).
Defined.

(** C5 as stated fails: in the sweep of "A" of the sample search the zero
    trial wins (it fits on the column "B" alone); at the loop head after
    that sweep "A" has left the live training table and the cutoff-set,
    and is still a key of the discard-set. *)
Lemma discards_keep_removed_key :
  sweep "roc_auc" "A" (search_start self2) = Ok (after_sweep self2 "A") /\
  reach "roc_auc" self2 (AtOuter ["B"] (after_sweep self2 "A")) /\
  df_keys (df_training_data (self (after_sweep self2 "A"))) = ["B"] /\
  dkeys (cutoffs (after_sweep self2 "A")) = ["B"] /\
  dkeys (discards (after_sweep self2 "A")) = ["A"; "B"] /\
  dkeys (discards (after_sweep self2 "A"))
    <> df_keys (df_training_data (self (after_sweep self2 "A"))).
Proof.
  assert (E : sweep "roc_auc" "A" (search_start self2) = Ok (after_sweep self2 "A"))
    by (vm_compute; reflexivity).
  split; [exact E |].
  split; [apply (reach_after_first_sweep "roc_auc" self2 "A" ["B"]);
            [reflexivity | exact E] |].
  split; [vm_compute; reflexivity |]. split; [vm_compute; reflexivity |].
  split; [vm_compute; reflexivity |]. vm_compute. discriminate.
Qed.

(** *** No dev data *)

Section NoDev.
Context {SkModel V : Type} `{FloatOps V} `{Services SkModel V}.

#[local] Abbreviation start := (@search_start SkModel V).

Lemma dkeys_fold_dset_head {A : Type} (v : A) (ks : list string) :
  forall (d : dict A) (k : string) (w : A),
    exists rest, dkeys (fold_left (fun d k => dset d k v) ks ((k, w) :: d)) = k :: rest.
Proof.
  induction ks as [| k0 ks IH]; intros d k w; simpl.
  - eauto.
  - destruct (String.eqb k0 k); apply IH.
Qed.

(** C10, as the code has it.  A [TrainClassifier] constructed without a
    dev-scores file has neither [dev_data] nor [dev_labels]; when its
    training table has at least one feature column, [find_best_model]
    fails with an [AttributeError] in its very first trial, where it
    copies the dev table, whatever the criterion is. *)
Theorem no_dev_first_trial_fails (train : DataFrame) (discard_est : option Q)
    (criterion : string) :
  exists self0,
    init train None discard_est = Ok self0 /\
    dev_data self0 = None /\ dev_labels self0 = None /\
    forall key keys, df_keys train = key :: keys ->
      (exists todo sw,
         dkeys (discards (start self0)) = key :: todo /\
         sweep_init key (start self0) = Ok sw /\
         trial criterion key sw = Err AttributeError) /\
      find_best_model self0 criterion = Err AttributeError.
Proof.
  eexists. split; [reflexivity |]. simpl. split; [reflexivity |]. split; [reflexivity |].
  intros key keys Ek.
  set (self0 := {| df_training_data := train;
                   discard_estimate := match discard_est with
                                       | Some d => d
                                       | None => 1 # 10
                                       end;
                   dev_data := None; dev_labels := None; labels_train := None |}).
  assert (Ed : exists e, dget (discards (start self0)) key = Some e).
  { eexists. unfold search_start, dict_fromkeys. simpl.
    apply dget_fold_dset. rewrite Ek. now left. }
  destruct Ed as (e & Ed).
  assert (Eh : exists todo, dkeys (discards (start self0)) = key :: todo).
  { unfold search_start, dict_fromkeys. simpl. rewrite Ek. simpl.
    apply dkeys_fold_dset_head. }
  destruct Eh as (todo & Eh).
  assert (E0 : sweep_init key (start self0)
               = Ok {| frame := start self0; discard := e; best_discard := e;
                       remove_column := false |}).
  { unfold sweep_init. rewrite Ed. reflexivity. }
  assert (Et : trial criterion key
                 {| frame := start self0; discard := e; best_discard := e;
                    remove_column := false |} = Err AttributeError) by reflexivity.
  split.
  - exists todo. eexists. split; [exact Eh |]. split; [exact E0 | exact Et].
  - unfold find_best_model, search. fold (start self0). rewrite Eh. cbn [outer].
    unfold sweep. rewrite E0. cbn [bind trials]. rewrite Et. reflexivity.
Qed.
End NoDev.

Lemma no_dev_first_trial_fails_witness :
  df_keys train1 = ["A"] /\
  find_best_model (SkModel := Model) (V := Q)
    {| df_training_data := train1; discard_estimate := 1 # 10;
       dev_data := None; dev_labels := None; labels_train := None |} "BIC"
    = Err AttributeError.
Proof.
  split; [reflexivity |].
  destruct (no_dev_first_trial_fails (SkModel := Model) (V := Q) train1 None "BIC")
    as (s & Ei & _ & _ & F).
  inversion Ei; subst s.
  exact (proj2 (F "A" [] eq_refl)).
Defined.

(** C10 as stated fails: without any feature column there is no trial, and
    the call returns [None] although [self] has no dev data. *)
Lemma no_feature_no_failure :
  init train0 None None = Ok self0_nodev /\
  dev_data self0_nodev = None /\
  find_best_model (SkModel := Model) (V := Q) self0_nodev "roc_auc" = Ok (None, self0_nodev) /\
  find_best_model (SkModel := Model) (V := Q) self0_nodev "AIC" = Ok (None, self0_nodev) /\
  find_best_model (SkModel := Model) (V := Q) self0_nodev "BIC" = Ok (None, self0_nodev).
Proof.
  repeat split; reflexivity.
Qed.

(** *** The discard-set of the best-model record *)

Section Alias.
Context {SkModel V : Type} `{FloatOps V} `{Services SkModel V}.

#[local] Abbreviation Frame := (@Frame SkModel V).
#[local] Abbreviation Sweep := (@Sweep SkModel V).
#[local] Abbreviation Trial := (@Trial SkModel V).
#[local] Abbreviation config := (@config SkModel V).

Lemma alias_inv_trial (criterion key : string) (todo : list string) (j : nat)
    (sw sw' : Sweep) :
  alias_inv (AtInner key todo j sw) ->
  trial criterion key sw = Ok sw' ->
  alias_inv (AtInner key todo (S j) sw').
Proof.
  intros [B (base & cur & Ds & Gb & Rc & Lw)] E.
  apply trial_inv in E.
  destruct E as (dev & d & zero & tr & dv & cc & self' & lv & LR & cv &
                 Edev & Ed & _ & _ & _ & E).
  cbv zeta in E.
  set (t := trial_record criterion key sw zero tr dv cc lv LR cv) in *.
  assert (Ec : d = cur).
  { rewrite Ds, dget_dset_eq in Ed. congruence. }
  subst d. subst sw'. unfold alias_inv, best_inv. simpl.
  destruct (wins criterion (best_model (frame sw)) cv) eqn:W.
  - split; [split; reflexivity |].
    exists (dset base key (round2 (discard sw))), (round2 (discard sw - (1 # 100))).
    split; [rewrite Ds, !dset_dset; reflexivity |].
    split; [apply dget_dset_eq |].
    split; [apply round2_idem |].
    intros t' Et'. inversion Et'; subst t'.
    unfold settled. simpl. rewrite Ed, Ds, dset_dset, Rc. reflexivity.
  - split; [exact B |].
    exists base, (round2 (discard sw - (1 # 100))).
    split; [rewrite Ds, dset_dset; reflexivity |].
    split; [exact Gb |].
    split; [apply round2_idem | exact Lw].
Qed.

Lemma alias_inv_reach (criterion : string) (self0 : TrainClassifier) (c : config) :
  reach criterion self0 c -> alias_inv c.
Proof.
  induction 1 as [| key todo fr sw R IH E | key todo j sw sw' R IH L E
                  | key todo sw fr R IH E].
  - split; simpl; [exact I | discriminate].
  - apply sweep_init_inv in E. destruct E as (d & Ed & E). subst sw.
    destruct IH as [B Lw]. split; [exact B |]. simpl.
    exists (discards fr), d.
    split; [symmetry; now apply dset_same |]. auto.
  - exact (alias_inv_trial criterion key todo j sw sw' IH E).
  - destruct IH as [B (base & cur & Ds & Gb & Rc & Lw)].
    apply sweep_end_inv in E. destruct E as (self' & cutoffs' & _ & E).
    subst fr. split; [exact B |]. simpl.
    intros t Et. rewrite Ds, dset_dset, (dset_same _ _ _ Gb). now apply Lw.
Qed.

Lemma hundredths_dset (d : dict Q) (k : string) (v : Q) :
  hundredths d -> (round2 v == v)%Q -> hundredths (dset d k v).
Proof.
  unfold hundredths. rewrite !Forall_forall. intros F Ev [k' v'] I.
  apply in_dset in I. destruct I as [[_ E] | I]; [subst; exact Ev | exact (F _ I)].
Qed.

Lemma hundredths_dget (d : dict Q) (k : string) (v : Q) :
  hundredths d -> dget d k = Some v -> (round2 v == v)%Q.
Proof.
  unfold hundredths. induction d as [| [k' v'] d IH]; simpl; [discriminate |].
  intros F. inversion F; subst. destruct (String.eqb k k'); [| auto].
  intros E. inversion E; subst. assumption.
Qed.

Lemma hundredths_fromkeys (ks : list string) (v : Q) :
  (round2 v == v)%Q -> hundredths (dict_fromkeys ks v).
Proof.
  intros Ev. unfold dict_fromkeys.
  assert (G : forall d, hundredths d ->
                hundredths (fold_left (fun d k => dset d k v) ks d)).
  { induction ks as [| k ks IH]; simpl; intros d F; [exact F |].
    apply IH. now apply hundredths_dset. }
  apply G. constructor.
Qed.

Lemma hundredths_inv_reach (criterion : string) (self0 : TrainClassifier) (c : config) :
  (round2 (discard_estimate self0) == discard_estimate self0)%Q ->
  reach criterion self0 c -> hundredths_inv c.
Proof.
  intros Ee. unfold hundredths_inv.
  induction 1 as [| key todo fr sw R IH E | key todo j sw sw' R IH L E
                  | key todo sw fr R IH E]; simpl in *.
  - split; [now apply hundredths_fromkeys | split; [constructor | exact I]].
  - apply sweep_init_inv in E. destruct E as (d & Ed & E). subst sw. simpl.
    destruct IH as (F & Fh & _). repeat split; auto.
    exact (hundredths_dget _ _ _ F Ed).
  - destruct IH as (F & Fh & Eb).
    apply trial_inv in E.
    destruct E as (dev & d & zero & tr & dv & cc & self' & lv & LR & cv &
                   Edev & Ed & _ & _ & _ & E).
    cbv zeta in E. subst sw'. simpl.
    split; [apply hundredths_dset; [exact F | rewrite round2_idem; reflexivity] |].
    split; [constructor; [exact F | exact Fh] |].
    destruct (wins criterion (best_model (frame sw)) cv);
      [rewrite round2_idem; reflexivity | exact Eb].
  - destruct IH as (F & Fh & Eb).
    apply sweep_end_inv in E. destruct E as (self' & cutoffs' & _ & E).
    subst fr. simpl. split; [now apply hundredths_dset | auto].
Qed.

Lemma last_win_in (h : list Trial) (t : Trial) : last_win h = Some t -> In t h.
Proof.
  induction h as [| u h IH]; simpl; [discriminate |].
  destruct (t_win u); intros E; [inversion E; auto | auto].
Qed.

Lemma settled_keeps_others (t : Trial) (k : string) :
  k <> t_key t -> dget (settled t) k = dget (t_discards t) k.
Proof.
  intros N. unfold settled.
  destruct (dget (t_discards t) (t_key t)); [now apply dget_dset_neq | reflexivity].
Qed.

Lemma same_numbers_refl (d : dict Q) : same_numbers d d.
Proof.
  unfold same_numbers. induction d as [| [k v] d IH]; constructor;
    [split; reflexivity | exact IH].
Qed.

Lemma same_numbers_dset (d : dict Q) (k : string) (v w : Q) :
  dget d k = Some v -> (w == v)%Q -> same_numbers (dset d k w) d.
Proof.
  unfold same_numbers. induction d as [| [k0 v0] d IH]; simpl; [discriminate |].
  destruct (String.eqb k k0) eqn:E; intros G Ew.
  - inversion G; subst. constructor; [split; [reflexivity | exact Ew] |].
    apply same_numbers_refl.
  - constructor; [split; reflexivity | now apply IH].
Qed.

Lemma settled_hundredths (t : Trial) :
  hundredths (t_discards t) -> same_numbers (settled t) (t_discards t).
Proof.
  intros F. unfold settled.
  destruct (dget (t_discards t) (t_key t)) as [d |] eqn:Ed;
    [| apply same_numbers_refl].
  apply (same_numbers_dset _ _ d); [exact Ed | exact (hundredths_dget _ _ _ F Ed)].
Qed.

(** C4, as the code has it.  The best-model record holds a reference to
    the live discard-set, not a copy: the discard-set component of the
    returned record is the discard-set as the search leaves it.  With [t]
    the last winning trial, the record holds the model and the criterion
    value of [t]; its discard-set agrees with the discard-set at the
    moment of that win on every feature but the winning trial's own,
    whose entry is the win's value rounded to two decimals; so it holds
    the same numbers as the discard-set at that moment when the default
    discard estimate is a whole number of hundredths, as 0.1 is. *)
Theorem returned_discards_alias (criterion : string) (self0 : TrainClassifier)
    (fr : Frame) :
  search criterion self0 = Ok fr ->
  (returned fr = None <-> last_win (history fr) = None) /\
  forall t, last_win (history fr) = Some t ->
    returned fr = Some (t_model t, t_crit t, discards fr) /\
    discards fr = settled t /\
    (forall k, k <> t_key t -> dget (discards fr) k = dget (t_discards t) k) /\
    ((round2 (discard_estimate self0) == discard_estimate self0)%Q ->
     same_numbers (discards fr) (t_discards t)).
Proof.
  intros E. apply search_reach in E.
  pose proof (alias_inv_reach _ _ _ E) as [B Lw]. simpl in B, Lw.
  unfold best_inv in B. unfold returned.
  split.
  - destruct (best_model fr) as [[[m c] r] |], (last_win (history fr));
      try contradiction; split; congruence.
  - intros t Et. rewrite Et in B.
    destruct (best_model fr) as [[[m c] r] |]; [| contradiction].
    destruct B as [Em Ec]. subst m c. destruct r. simpl.
    pose proof (Lw t Et) as Es.
    split; [reflexivity |]. split; [exact Es |]. split.
    + intros k N. rewrite Es. now apply settled_keeps_others.
    + intros Ee. rewrite Es. apply settled_hundredths.
      pose proof (hundredths_inv_reach _ _ _ Ee E) as (_ & Fh & _). simpl in Fh.
      rewrite Forall_forall in Fh. apply Fh. now apply last_win_in.
Qed.
End Alias.

Lemma returned_discards_alias_witness :
  search "roc_auc" self2b = Ok (final_frame self2b) /\
  (round2 (discard_estimate self2b) == discard_estimate self2b)%Q /\
  exists t,
    last_win (history (final_frame self2b)) = Some t /\
    t_discards t = [("A", 1 # 10); ("B", 1 # 10)]%Q /\
    returned (final_frame self2b)
      = Some (t_model t, t_crit t, [("A", 10 # 100); ("B", 1 # 10)]%Q) /\
    same_numbers (discards (final_frame self2b)) (t_discards t).
Proof.
  assert (E : search "roc_auc" self2b = Ok (final_frame self2b)) by (vm_compute; reflexivity).
  assert (Ee : (round2 (discard_estimate self2b) == discard_estimate self2b)%Q)
    by reflexivity.
  split; [exact E |]. split; [exact Ee |].
  destruct (last_win (history (final_frame self2b))) as [t |] eqn:Lw;
    [| vm_compute in Lw; discriminate Lw].
  exists t.
  assert (Td : t_discards t = [("A", 1 # 10); ("B", 1 # 10)]%Q).
  { vm_compute in Lw. injection Lw as Lw. rewrite <- Lw. reflexivity. }
  destruct (returned_discards_alias "roc_auc" self2b (final_frame self2b) E) as [_ P].
  destruct (P t Lw) as (Er & _ & _ & Sn).
  assert (D : discards (final_frame self2b) = [("A", 10 # 100); ("B", 1 # 10)]%Q)
    by (vm_compute; reflexivity).
  split; [reflexivity |]. split; [exact Td |]. split; [| exact (Sn Ee)].
  rewrite Er, D. reflexivity.
Defined.

(** C4 as stated fails: with the default discard 0.123 the only winning
    trial of the sample search is the first one, taken when the
    discard-set was {A: 0.123}; the record that is returned holds
    {A: 0.12}, the value the end of the sweep wrote into the live
    discard-set. *)
Lemma returned_discards_not_snapshot :
  exists (t : @Trial Model Q) (m : Classifier Model) (c : Q),
    search "roc_auc" (self1 (123 # 1000)) = Ok (final_frame (self1 (123 # 1000))) /\
    last_win (history (final_frame (self1 (123 # 1000)))) = Some t /\
    t_discards t = [("A", 123 # 1000)]%Q /\
    returned (final_frame (self1 (123 # 1000))) = Some (m, c, [("A", 12 # 100)]%Q) /\
    [("A", 12 # 100)]%Q <> t_discards t.
Proof.
  do 3 eexists.
  split; [vm_compute; reflexivity |].
  split; [vm_compute; reflexivity |].
  split; [vm_compute; reflexivity |].
  split; [vm_compute; reflexivity |].
  vm_compute. discriminate.
Qed.

(** *** The range of the discard fractions *)

Lemma steps_0 : (steps 0 == 0)%Q.
Proof. reflexivity. Qed.

Lemma steps_S (j : nat) : (steps (S j) == steps j + (1 # 100))%Q.
Proof.
  unfold steps. rewrite Nat2Z.inj_succ. unfold Z.succ. rewrite inject_Z_plus.
  change (inject_Z 1) with 1%Q. Lqa.lra.
Qed.

Lemma steps_le (j m : nat) : (j <= m)%nat -> (steps j <= steps m)%Q.
Proof.
  intros L. unfold steps.
  assert (I : (inject_Z (Z.of_nat j) <= inject_Z (Z.of_nat m))%Q).
  { rewrite <- Zle_Qle. lia. }
  Lqa.lra.
Qed.

Lemma steps_nonneg (j : nat) : (0 <= steps j)%Q.
Proof.
  rewrite <- steps_0. apply steps_le. lia.
Qed.

Section DictRange.
Context {A : Type}.

Lemma in_dset_nodup (d : dict A) (k k' : string) (v v' : A) :
  NoDup (dkeys d) ->
  In (k', v') (dset d k v) ->
  (k' = k /\ v' = v) \/ (k' <> k /\ In (k', v') d).
Proof.
  induction d as [| [k0 v0] d IH]; simpl; intros ND.
  - intros [E | []]. inversion E. auto.
  - inversion ND as [| ? ? NI ND']; subst.
    destruct (String.eqb k k0) eqn:E; simpl.
    + apply String.eqb_eq in E. subst k0.
      intros [E' | I]; [inversion E'; auto |].
      right. split; [| auto]. intros E'. subst k'.
      apply NI. change k with (fst (k, v')). now apply in_map.
    + apply String.eqb_neq in E.
      intros [E' | I]; [inversion E'; subst; auto |].
      destruct (IH ND' I) as [L | [N I']]; auto.
Qed.

Lemma dget_in (d : dict A) (k : string) (v : A) : dget d k = Some v -> In (k, v) d.
Proof.
  induction d as [| [k0 v0] d IH]; simpl; [discriminate |].
  destruct (String.eqb k k0) eqn:E.
  - apply String.eqb_eq in E. subst k0. intros G. inversion G. auto.
  - auto.
Qed.

Lemma in_fromkeys (ks : list string) (v : A) (k : string) (w : A) :
  In (k, w) (dict_fromkeys ks v) -> w = v.
Proof.
  unfold dict_fromkeys.
  assert (G : forall d, (forall k w, In (k, w) d -> w = v) ->
                In (k, w) (fold_left (fun d k => dset d k v) ks d) -> w = v).
  { induction ks as [| k0 ks IH]; simpl; intros d F; [apply F |].
    apply IH. intros k1 w1 I. apply in_dset in I.
    destruct I as [[_ E] | I]; [exact E | exact (F _ _ I)]. }
  apply G. intros k1 w1 [].
Qed.
End DictRange.

Section Range.
Context {SkModel V : Type} `{FloatOps V} `{Services SkModel V}.

#[local] Abbreviation Frame := (@Frame SkModel V).
#[local] Abbreviation Sweep := (@Sweep SkModel V).
#[local] Abbreviation config := (@config SkModel V).
#[local] Abbreviation start := (@search_start SkModel V).

Lemma nodup_discards (criterion : string) (self0 : TrainClassifier) (c : config) :
  reach criterion self0 c -> NoDup (dkeys (discards (frame_of c))).
Proof.
  intros R. destruct (discards_keys_reach criterion self0 c R) as [K _].
  rewrite K. apply nodup_fromkeys.
Qed.

Lemma unit_inv_reach (criterion : string) (self0 : TrainClassifier) (m : nat)
    (c : config) :
  (10 <= m)%nat ->
  (steps m <= discard_estimate self0)%Q ->
  (discard_estimate self0 <= 1)%Q ->
  reach criterion self0 c ->
  unit_inv (discard_estimate self0) m c.
Proof.
  intros Lm Lo Hi.
  set (e := discard_estimate self0) in *.
  assert (E01 : (0 <= e <= 1)%Q).
  { pose proof (steps_nonneg m). split; [Lqa.lra | exact Hi]. }
  induction 1 as [| key todo fr sw R IH E | key todo j sw sw' R IH L E
                  | key todo sw fr R IH E]; simpl.
  - split; [apply nodup_fromkeys |]. split.
    + intros k I. apply in_keys_dget in I. destruct I as (v & Ev).
      rewrite Ev. f_equal. apply dget_in in Ev. now apply in_fromkeys in Ev.
    + intros k v I. apply in_fromkeys in I. subst v. exact E01.
  - destruct IH as (ND & De & U).
    apply sweep_init_inv in E. destruct E as (d & Ed & E). subst sw. simpl.
    rewrite (De key (or_introl eq_refl)) in Ed. inversion Ed; subst d.
    split; [exact ND |].
    split; [intros k I; apply De; now right |].
    split; [lia |].
    split; [rewrite steps_0; Lqa.lra |].
    split; [exact E01 |].
    split; [intros k v I _; exact (U k v I) | intros _; exact U].
  - destruct IH as (ND & De & Lj & Dj & Bd & Oth & U).
    apply trial_inv in E.
    destruct E as (dev & d & zero & tr & dv & cc & self' & lv & LR & cv &
                   Edev & Ed & _ & _ & _ & E).
    cbv zeta in E. subst sw'. simpl.
    pose proof (steps_S j) as SS.
    pose proof (steps_le j m) as Sjm.
    pose proof (steps_le (S j) m) as SSjm.
    pose proof (steps_nonneg j) as Nj.
    split; [exact ND |].
    split.
    { intros k I. rewrite dget_dset_neq; [now apply De |].
      intros Ek. subst k. inversion ND; contradiction. }
    split; [lia |].
    split; [rewrite SS, Dj; Lqa.lra |].
    split.
    { destruct (wins criterion (best_model (frame sw)) cv); [| exact Bd].
      apply round2_unit. assert (P : (steps j <= steps m)%Q) by (apply Sjm; lia).
      rewrite Dj. split; Lqa.lra. }
    split.
    { intros k v I N. apply in_dset in I.
      destruct I as [[Ek _] | I]; [contradiction | exact (Oth k v I N)]. }
    intros LS. intros k v I. apply in_dset in I.
    destruct I as [[_ Ev] | I]; [| apply (U ltac:(lia) k v I)].
    subst v. apply round2_unit.
    assert (P : (steps (S j) <= steps m)%Q) by (apply SSjm; exact LS).
    rewrite Dj. split; Lqa.lra.
  - destruct IH as (ND & De & Lj & Dj & Bd & Oth & U).
    pose proof (nodup_discards _ _ _ R) as NDd. simpl in NDd.
    apply sweep_end_inv in E. destruct E as (self' & cutoffs' & _ & E).
    subst fr. simpl.
    split; [now inversion ND |].
    split.
    { intros k I. rewrite dget_dset_neq; [now apply De |].
      intros Ek. subst k. inversion ND; contradiction. }
    intros k v I. apply in_dset_nodup in I; [| exact NDd].
    destruct I as [[_ Ev] | [N I]]; [subst v; exact Bd | exact (Oth k v I N)].
Qed.

(** C7, as the code has it.  With a default discard estimate between
    0.11 and 1, every value the discard-set holds at any loop head of the
    search lies in [0, 1].  With a default between 0.10 and 1 this holds
    at every loop head where a trial starts or a sweep is over: the
    eleven trials of a sweep read values in [0, 1], and only the value
    the eleventh decrement writes, overwritten when the sweep ends, may
    be negative. *)
Theorem discards_stay_in_unit (criterion : string) (self0 : TrainClassifier)
    (c : config) :
  reach criterion self0 c ->
  (discard_estimate self0 <= 1)%Q ->
  ((11 # 100 <= discard_estimate self0)%Q -> in_unit (discards (frame_of c))) /\
  ((10 # 100 <= discard_estimate self0)%Q -> trial_head c = true ->
   in_unit (discards (frame_of c))).
Proof.
  intros R Hi. split.
  - intros Lo.
    assert (U : unit_inv (discard_estimate self0) 11 c).
    { apply (unit_inv_reach criterion); [lia | exact Lo | exact Hi | exact R]. }
    destruct c as [todo fr | key todo j sw]; simpl in *; [tauto |].
    destruct U as (_ & _ & Lj & _ & _ & _ & U). now apply U.
  - intros Lo Th.
    assert (U : unit_inv (discard_estimate self0) 10 c).
    { apply (unit_inv_reach criterion); [lia | exact Lo | exact Hi | exact R]. }
    destruct c as [todo fr | key todo j sw]; simpl in *; [tauto |].
    destruct U as (_ & _ & Lj & _ & _ & _ & U). apply U.
    apply Nat.ltb_lt in Th. lia.
Qed.
End Range.

Lemma discards_stay_in_unit_witness :
  reach "roc_auc" (self1 (11 # 100)) (AtInner "A" [] 11 (sweep_after (self1 (11 # 100)) "A" 11)) /\
  (discard_estimate (self1 (11 # 100)) <= 1)%Q /\
  (11 # 100 <= discard_estimate (self1 (11 # 100)))%Q /\
  in_unit (discards (frame_of (AtInner "A" [] 11 (sweep_after (self1 (11 # 100)) "A" 11)))).
Proof.
  assert (R : reach "roc_auc" (self1 (11 # 100))
                (AtInner "A" [] 11 (sweep_after (self1 (11 # 100)) "A" 11))).
  { eapply reach_trials_from_start;
      [reflexivity | reflexivity | vm_compute; reflexivity | lia]. }
  assert (Hi : (discard_estimate (self1 (11 # 100)) <= 1)%Q) by (vm_compute; discriminate).
  assert (Lo : (11 # 100 <= discard_estimate (self1 (11 # 100)))%Q) by (vm_compute; discriminate).
  split; [exact R |]. split; [exact Hi |]. split; [exact Lo |].
  exact (proj1 (discards_stay_in_unit "roc_auc" (self1 (11 # 100))
                  (AtInner "A" [] 11 (sweep_after (self1 (11 # 100)) "A" 11)) R Hi) Lo).
Defined.

(** C7 as stated fails.  On the two-feature sample with the default 0.05,
    not above 0.10, the sixth trial of the sweep of "A" (its zero trial,
    fitted on "B" alone) leaves -0.01 in the discard-set; with the default
    0.10 itself the eleventh trial does. *)
Lemma discards_leave_unit :
  (discard_estimate (self2d (5 # 100)) <= 10 # 100)%Q /\
  reach "roc_auc" (self2d (5 # 100))
    (AtInner "A" ["B"] 6 (sweep_after (self2d (5 # 100)) "A" 6)) /\
  In ("A", (-1 # 100)%Q) (discards (frame (sweep_after (self2d (5 # 100)) "A" 6))) /\
  ~ in_unit (discards (frame (sweep_after (self2d (5 # 100)) "A" 6))) /\
  (discard_estimate (self2d (10 # 100)) <= 10 # 100)%Q /\
  reach "roc_auc" (self2d (10 # 100))
    (AtInner "A" ["B"] 11 (sweep_after (self2d (10 # 100)) "A" 11)) /\
  In ("A", (-1 # 100)%Q) (discards (frame (sweep_after (self2d (10 # 100)) "A" 11))) /\
  ~ in_unit (discards (frame (sweep_after (self2d (10 # 100)) "A" 11))).
Proof.
  assert (N : ~ (0 <= -1 # 100)%Q) by (intros L; exact (L eq_refl)).
  assert (I5 : In ("A", (-1 # 100)%Q)
                  (discards (frame (sweep_after (self2d (5 # 100)) "A" 6)))).
  { vm_compute. left. reflexivity. }
  assert (I10 : In ("A", (-1 # 100)%Q)
                   (discards (frame (sweep_after (self2d (10 # 100)) "A" 11)))).
  { vm_compute. left. reflexivity. }
  assert (R5 : reach "roc_auc" (self2d (5 # 100))
                 (AtInner "A" ["B"] 6 (sweep_after (self2d (5 # 100)) "A" 6))).
  { eapply reach_trials_from_start;
      [reflexivity | reflexivity | vm_compute; reflexivity | lia]. }
  assert (R10 : reach "roc_auc" (self2d (10 # 100))
                  (AtInner "A" ["B"] 11 (sweep_after (self2d (10 # 100)) "A" 11))).
  { eapply reach_trials_from_start;
      [reflexivity | reflexivity | vm_compute; reflexivity | lia]. }
  split; [vm_compute; discriminate |].
  split; [exact R5 |].
  split; [exact I5 |].
  split; [intros U; exact (N (proj1 (U _ _ I5))) |].
  split; [vm_compute; discriminate |].
  split; [exact R10 |].
  split; [exact I10 |].
  intros U; exact (N (proj1 (U _ _ I10))).
Qed.

(** * Further properties of the code *)

(** ** Popping a key *)

Section PopFacts.
Context {A : Type}.

Lemma dpop_some (d : dict A) (k : string) (v : A) :
  dget d k = Some v ->
  exists d', dpop d k = Some (v, d') /\
             forall k', k' <> k -> dget d' k' = dget d k'.
Proof.
  induction d as [| [k0 v0] d IH]; simpl; [discriminate |].
  destruct (String.eqb k k0) eqn:E.
  - intros G. inversion G; subst. apply String.eqb_eq in E. subst k0.
    exists d. split; [reflexivity |].
    intros k' N. apply String.eqb_neq in N. now rewrite N.
  - intros G. destruct (IH G) as (d' & P & O). rewrite P.
    exists ((k0, v0) :: d'). split; [reflexivity |].
    intros k' N. simpl. destruct (String.eqb k' k0); [reflexivity | now apply O].
Qed.

Lemma dpop_none (d : dict A) (k : string) : dget d k = None -> dpop d k = None.
Proof.
  induction d as [| [k0 v0] d IH]; simpl; [reflexivity |].
  destruct (String.eqb k k0); [discriminate |].
  intros G. now rewrite IH.
Qed.
End PopFacts.

Lemma remove_key_gone (k : string) (ks : list string) :
  NoDup ks -> ~ In k (remove_key k ks).
Proof.
  induction ks as [| k0 ks IH]; simpl; [tauto |].
  intros ND. inversion ND as [| ? ? NI ND']; subst.
  destruct (String.eqb k k0) eqn:E.
  - apply String.eqb_eq in E. now subst k0.
  - apply String.eqb_neq in E. simpl. intros [E' | I]; [congruence | now apply IH].
Qed.

Lemma remove_key_keeps (k x : string) (ks : list string) :
  In x ks -> x <> k -> In x (remove_key k ks).
Proof.
  induction ks as [| k0 ks IH]; simpl; [tauto |].
  intros [E | I] N.
  - subst k0. apply not_eq_sym in N. apply String.eqb_neq in N. rewrite N. now left.
  - destruct (String.eqb k k0); [exact I | right; now apply IH].
Qed.

Lemma df_pop_some (df : DataFrame) (key : string) (col : Series) :
  dget (columns df) key = Some col ->
  exists df', df_pop df key = Ok (col, df') /\
              index_len df' = index_len df /\
              df_keys df' = remove_key key (df_keys df) /\
              forall k, k <> key -> dget (columns df') k = dget (columns df) k.
Proof.
  intros G. destruct (dpop_some _ _ _ G) as (cols & P & O).
  exists {| index_len := index_len df; columns := cols |}.
  unfold df_pop, df_keys. rewrite P. simpl.
  repeat split; [now apply dkeys_dpop in P | exact O].
Qed.

(** ** The constructor *)

(** X1.  [TrainClassifier.__init__] with a dev table: when the table has a
    [label] column, that column becomes [dev_labels] and [dev_data] is the
    table without it (same rows, the other columns untouched and, for
    distinct column names, no [label] column left); when it has none, the
    constructor raises [KeyError].  The discard estimate defaults to 0.1. *)
Theorem init_splits_dev_labels (train dev : DataFrame) (d : option Q) :
  (forall col, dget (columns dev) "label" = Some col ->
     exists self0 dev',
       init train (Some dev) d = Ok self0 /\
       df_training_data self0 = train /\
       discard_estimate self0 = match d with Some x => x | None => (1 # 10)%Q end /\
       dev_labels self0 = Some col /\
       dev_data self0 = Some dev' /\
       labels_train self0 = None /\
       index_len dev' = index_len dev /\
       df_keys dev' = remove_key "label" (df_keys dev) /\
       (forall k, k <> "label" -> dget (columns dev') k = dget (columns dev) k) /\
       (NoDup (df_keys dev) -> ~ In "label" (df_keys dev'))) /\
  (dget (columns dev) "label" = None -> init train (Some dev) d = Err KeyError).
Proof.
  split.
  - intros col G. destruct (df_pop_some dev "label" col G) as (dev' & P & L & K & O).
    eexists. exists dev'. unfold init. rewrite P. simpl.
    split; [reflexivity |]. simpl.
    repeat (split; [first [reflexivity | assumption] |]).
    intros ND. rewrite K. now apply remove_key_gone.
  - intros G. unfold init, df_pop. now rewrite (dpop_none _ _ G).
Qed.

(** ** Criterion strings, baselines and improvements *)

Section SearchOutcome.
Context {SkModel V : Type} `{FloatOps V} `{Services SkModel V}.

#[local] Abbreviation Frame := (@Frame SkModel V).
#[local] Abbreviation Sweep := (@Sweep SkModel V).
#[local] Abbreviation start := (@search_start SkModel V).

Lemma crit_value_known (criterion : string) (self' : TrainClassifier)
    (LR : Classifier SkModel) (tr dv : DataFrame) (lv : list Z) (cv : V) :
  crit_value_of criterion self' LR tr dv lv = Ok cv ->
  criterion = "roc_auc" \/ criterion = "AIC" \/ criterion = "BIC".
Proof.
  unfold crit_value_of.
  destruct (String.eqb criterion "roc_auc") eqn:E1; [apply String.eqb_eq in E1; auto |].
  destruct (String.eqb criterion "AIC") eqn:E2; [apply String.eqb_eq in E2; auto |].
  destruct (String.eqb criterion "BIC") eqn:E3; [apply String.eqb_eq in E3; auto |].
  discriminate.
Qed.

Lemma start_keys_head (self0 : TrainClassifier) (key : string) (keys : list string) :
  df_keys (df_training_data self0) = key :: keys ->
  (exists todo, dkeys (discards (start self0)) = key :: todo) /\
  dget (discards (start self0)) key = Some (discard_estimate self0) /\
  (exists c, dget (cutoffs (start self0)) key = Some c).
Proof.
  intros Ek. unfold search_start, dict_fromkeys. simpl. rewrite Ek.
  split; [simpl; apply dkeys_fold_dset_head |].
  split; [apply dget_fold_dset; now left |].
  eexists. apply dget_fold_dset. now left.
Qed.

Lemma failing_trials_fail_search (criterion : string) (self0 : TrainClassifier)
    (key : string) (keys : list string) :
  (forall sw, exists e, trial criterion key sw = Err e) ->
  df_keys (df_training_data self0) = key :: keys ->
  exists e, find_best_model self0 criterion = Err e.
Proof.
  intros F Ek. destruct (start_keys_head self0 key keys Ek) as ((todo & Eh) & Ed & _).
  unfold find_best_model, search. fold (start self0). rewrite Eh. cbn [outer].
  unfold sweep, sweep_init. rewrite Ed. cbn [bound bind trials].
  match goal with |- context [trial criterion key ?sw] => destruct (F sw) as (e & Ee) end.
  rewrite Ee. exists e. reflexivity.
Qed.

(** X2.  A criterion string other than 'roc_auc', 'AIC' and 'BIC' is not
    rejected up front: no trial completes with it (line 184 reads the
    unassigned [crit_value]), no loop head beyond the first sweep's entry
    is reached, and [find_best_model] raises on every training table with
    at least one feature column. *)
Theorem unknown_criterion_fails (criterion : string) (self0 : TrainClassifier) :
  criterion <> "roc_auc" -> criterion <> "AIC" -> criterion <> "BIC" ->
  (forall key sw, exists e, trial criterion key sw = Err e) /\
  (forall c, reach criterion self0 c -> history (frame_of c) = []) /\
  (df_keys (df_training_data self0) <> [] ->
   exists e, find_best_model self0 criterion = Err e).
Proof.
  intros N1 N2 N3.
  assert (F : forall key sw, exists e, trial criterion key sw = Err e).
  { intros key sw. destruct (trial criterion key sw) as [sw' |] eqn:E; [| eauto].
    exfalso. apply trial_inv in E.
    destruct E as (dev & d & zero & tr & dv & cc & self' & lv & LR & cv &
                   _ & _ & _ & _ & Ecv & _).
    apply crit_value_known in Ecv. tauto. }
  split; [exact F |]. split.
  - induction 1 as [| key todo fr sw R IH E | key todo j sw sw' R IH L E
                    | key todo sw fr R IH E]; simpl in *.
    + reflexivity.
    + apply sweep_init_inv in E. destruct E as (d & _ & E). subst sw. exact IH.
    + destruct (F key sw) as (e & Ee). congruence.
    + apply sweep_end_inv in E. destruct E as (self' & cutoffs' & _ & E).
      subst fr. exact IH.
  - intros Ne. destruct (df_keys (df_training_data self0)) as [| key keys] eqn:Ek;
      [congruence |].
    exact (failing_trials_fail_search criterion self0 key keys (F key) Ek).
Qed.

(** X3.  With a discard estimate of 0 the very first trial is a
    drop-the-feature trial, and no labels exist yet: on a classifier
    whose dev table has the first training column, [find_best_model]
    raises [UnboundLocalError], whatever the criterion. *)
Theorem zero_default_unbound (criterion : string) (self0 : TrainClassifier)
    (dev : DataFrame) (key : string) (keys : list string) :
  (discard_estimate self0 == 0)%Q ->
  dev_data self0 = Some dev ->
  df_keys (df_training_data self0) = key :: keys ->
  In key (df_keys dev) ->
  find_best_model self0 criterion = Err UnboundLocalError.
Proof.
  intros Z Edev Ek Idev.
  destruct (start_keys_head self0 key keys Ek) as ((todo & Eh) & Ed & (c3 & Ec)).
  assert (It : In key (df_keys (df_training_data self0))) by (rewrite Ek; now left).
  apply in_keys_dget in It. destruct It as (c1 & E1).
  apply in_keys_dget in Idev. destruct Idev as (c2 & E2).
  destruct (df_pop_some _ _ _ E1) as (tr & P1 & _).
  destruct (df_pop_some _ _ _ E2) as (dv & P2 & _).
  destruct (dpop_some _ _ _ Ec) as (cc & P3 & _).
  apply Qeq_bool_iff in Z.
  unfold find_best_model, search. fold (start self0). rewrite Eh. cbn [outer].
  unfold sweep, sweep_init. rewrite Ed. cbn [bound bind trials].
  rewrite (zero_trial_unbound_labels criterion key _ dev (discard_estimate self0)
             c1 c2 tr dv c3 cc); first [assumption | reflexivity].
Qed.

Lemma trial_sets_best (criterion key : string) (sw sw' : Sweep) :
  trial criterion key sw = Ok sw' -> best_model (frame sw') <> None.
Proof.
  intros E. apply trial_inv in E.
  destruct E as (dev & d & zero & tr & dv & cc & self' & lv & LR & cv &
                 _ & _ & _ & _ & Ecv & E).
  cbv zeta in E. subst sw'. simpl.
  apply crit_value_known in Ecv. unfold wins.
  destruct (best_model (frame sw)) as [[[m b] r] |] eqn:Eb.
  - destruct Ecv as [C | [C | C]]; subst criterion; simpl;
      match goal with |- context [Vltb ?x ?y] => destruct (Vltb x y) end;
      discriminate.
  - destruct Ecv as [C | [C | C]]; subst criterion; simpl; discriminate.
Qed.

(** X4.  A trial that completes leaves a best-model record; if there was
    one before, the new record is either the old model with the old value
    or a strict improvement: a strictly greater value under 'roc_auc', a
    strictly smaller one under 'AIC' and 'BIC'. *)
Theorem best_model_improves (criterion key : string) (sw sw' : Sweep) :
  trial criterion key sw = Ok sw' ->
  exists m' b' r',
    best_model (frame sw') = Some (m', b', r') /\
    forall m b r, best_model (frame sw) = Some (m, b, r) ->
      (m' = m /\ b' = b) \/
      (criterion = "roc_auc" /\ Vltb b b' = true) \/
      ((criterion = "AIC" \/ criterion = "BIC") /\ Vltb b' b = true).
Proof.
  intros E. apply trial_inv in E.
  destruct E as (dev & d & zero & tr & dv & cc & self' & lv & LR & cv &
                 _ & _ & _ & _ & Ecv & E).
  cbv zeta in E. subst sw'. simpl.
  apply crit_value_known in Ecv. unfold wins.
  destruct (best_model (frame sw)) as [[[m b] r] |] eqn:Eb.
  - destruct Ecv as [C | [C | C]]; subst criterion; simpl.
    + destruct (Vltb b cv) eqn:L; do 3 eexists; (split; [reflexivity |]);
        intros m0 b0 r0 E0; inversion E0; subst; auto.
    + destruct (Vltb cv b) eqn:L; do 3 eexists; (split; [reflexivity |]);
        intros m0 b0 r0 E0; inversion E0; subst; auto.
    + destruct (Vltb cv b) eqn:L; do 3 eexists; (split; [reflexivity |]);
        intros m0 b0 r0 E0; inversion E0; subst; auto.
  - destruct Ecv as [C | [C | C]]; subst criterion; simpl;
      do 3 eexists; (split; [reflexivity | discriminate]).
Qed.

Lemma trials_keep_best (criterion key : string) :
  forall (n : nat) (sw sw' : Sweep),
    trials n criterion key sw = Ok sw' ->
    (0 < n)%nat \/ best_model (frame sw) <> None ->
    best_model (frame sw') <> None.
Proof.
  induction n as [| n IH]; intros sw sw' E P; simpl in E.
  - inversion E; subst. destruct P as [P | P]; [lia | exact P].
  - apply bind_ok in E. destruct E as (sw1 & E1 & E).
    apply (IH sw1 sw' E). right.
    exact (trial_sets_best criterion key sw sw1 E1).
Qed.
End SearchOutcome.

Section ReturnedRecord.
Context {SkModel V : Type} `{FloatOps V} `{Services SkModel V}.

#[local] Abbreviation Frame := (@Frame SkModel V).
#[local] Abbreviation start := (@search_start SkModel V).

Lemma sweep_sets_best (criterion key : string) (fr fr' : Frame) :
  sweep criterion key fr = Ok fr' -> best_model fr' <> None.
Proof.
  unfold sweep. intros E.
  apply bind_ok in E. destruct E as (sw & _ & E).
  apply bind_ok in E. destruct E as (sw' & Et & E).
  apply sweep_end_inv in E. destruct E as (self' & cutoffs' & _ & E). subst fr'. simpl.
  apply (trials_keep_best criterion key 11 sw sw' Et). left. lia.
Qed.

Lemma outer_keeps_best (criterion : string) :
  forall (todo : list string) (fr fr' : Frame),
    outer criterion todo fr = Ok fr' ->
    best_model fr <> None -> best_model fr' <> None.
Proof.
  induction todo as [| key todo IH]; intros fr fr' E B; simpl in E.
  - inversion E; subst. exact B.
  - apply bind_ok in E. destruct E as (fr1 & E1 & E).
    apply (IH fr1 fr' E). exact (sweep_sets_best criterion key fr fr1 E1).
Qed.

(** X5.  When [find_best_model] returns, it returns [None] exactly when
    the training table has no feature column: with at least one feature
    the first completed trial sets a record and nothing removes it. *)
Theorem returned_none_iff_no_feature (criterion : string) (self0 : TrainClassifier)
    (fr : Frame) :
  search criterion self0 = Ok fr ->
  (returned fr = None <-> df_keys (df_training_data self0) = []).
Proof.
  intros E.
  assert (Rn : returned fr = None <-> best_model fr = None).
  { unfold returned. destruct (best_model fr) as [[[m c] r] |]; split; congruence. }
  rewrite Rn. unfold search in E. fold (start self0) in E.
  destruct (df_keys (df_training_data self0)) as [| key keys] eqn:Ek.
  - assert (Es : dkeys (discards (start self0)) = []).
    { unfold search_start. simpl. now rewrite Ek. }
    rewrite Es in E. simpl in E. inversion E; subst fr.
    split; reflexivity.
  - destruct (start_keys_head (SkModel := SkModel) (V := V) self0 key keys Ek)
      as ((todo & Eh) & _).
    rewrite Eh in E. cbn [outer] in E.
    apply bind_ok in E. destruct E as (fr1 & E1 & E).
    apply sweep_sets_best in E1.
    pose proof (outer_keeps_best criterion todo fr1 fr E E1) as B.
    split; [intros C; contradiction | discriminate].
Qed.
End ReturnedRecord.

Lemma unknown_criterion_fails_witness :
  "F1" <> "roc_auc" /\ "F1" <> "AIC" /\ "F1" <> "BIC" /\
  df_keys (df_training_data self2) <> [] /\
  exists e, find_best_model (SkModel := Model) (V := Q) self2 "F1" = Err e.
Proof.
  assert (N1 : "F1" <> "roc_auc") by discriminate.
  assert (N2 : "F1" <> "AIC") by discriminate.
  assert (N3 : "F1" <> "BIC") by discriminate.
  assert (Ne : df_keys (df_training_data self2) <> []) by (vm_compute; discriminate).
  repeat (split; [assumption |]).
  exact (proj2 (proj2 (unknown_criterion_fails (SkModel := Model) (V := Q)
                         "F1" self2 N1 N2 N3)) Ne).
Defined.

Lemma zero_default_unbound_witness :
  (discard_estimate (self1 0) == 0)%Q /\
  dev_data (self1 0)
    = Some {| index_len := 4; columns := [("A", [1 # 10; 2 # 10; 3 # 10; 4 # 10])]%Q |} /\
  df_keys (df_training_data (self1 0)) = ["A"] /\
  find_best_model (SkModel := Model) (V := Q) (self1 0) "AIC" = Err UnboundLocalError.
Proof.
  assert (Z : (discard_estimate (self1 0) == 0)%Q) by reflexivity.
  assert (D : dev_data (self1 0)
              = Some {| index_len := 4;
                        columns := [("A", [1 # 10; 2 # 10; 3 # 10; 4 # 10])]%Q |})
    by reflexivity.
  assert (K : df_keys (df_training_data (self1 0)) = ["A"]) by reflexivity.
  split; [exact Z |]. split; [exact D |]. split; [exact K |].
  apply (zero_default_unbound (SkModel := Model) (V := Q) "AIC" (self1 0) _ "A" [] Z D K).
  simpl. now left.
Defined.

Lemma best_model_improves_witness :
  trial "roc_auc" "A" (sweep_after self2 "A" 10) = Ok (sweep_after self2 "A" 11) /\
  exists m' b' r',
    best_model (frame (sweep_after self2 "A" 11)) = Some (m', b', r') /\
    forall m b r, best_model (frame (sweep_after self2 "A" 10)) = Some (m, b, r) ->
      (m' = m /\ b' = b) \/
      ("roc_auc" = "roc_auc" /\ Vltb b b' = true) \/
      (("roc_auc" = "AIC" \/ "roc_auc" = "BIC") /\ Vltb b' b = true).
Proof.
  assert (T : trial "roc_auc" "A" (sweep_after self2 "A" 10)
              = Ok (sweep_after self2 "A" 11)) by (vm_compute; reflexivity).
  split; [exact T |].
  exact (best_model_improves "roc_auc" "A" (sweep_after self2 "A" 10)
           (sweep_after self2 "A" 11) T).
Defined.

Lemma returned_none_iff_no_feature_witness :
  search "roc_auc" self2b = Ok (final_frame self2b) /\
  (returned (final_frame self2b) = None <-> df_keys (df_training_data self2b) = []).
Proof.
  assert (E : search "roc_auc" self2b = Ok (final_frame self2b)) by (vm_compute; reflexivity).
  split; [exact E |].
  exact (returned_none_iff_no_feature "roc_auc" self2b (final_frame self2b) E).
Defined.

(** ** What the search keeps *)

Lemma round_half_even_comp (a b : Q) : (a == b)%Q -> round_half_even a = round_half_even b.
Proof.
  intros E. unfold round_half_even.
  assert (F : Qfloor a = Qfloor b) by (now rewrite E).
  assert (C : Qcompare (a - inject_Z (Qfloor a)) (1 # 2)
              = Qcompare (b - inject_Z (Qfloor b)) (1 # 2)).
  { rewrite F. now rewrite E. }
  cbv zeta. rewrite C, F. reflexivity.
Qed.

Lemma round2_comp (x y : Q) : (x == y)%Q -> round2 x = round2 y.
Proof.
  intros E. unfold round2. f_equal. apply round_half_even_comp. now rewrite E.
Qed.

Lemma label_rows_length (td : DataFrame) (cutoffs : dict (option Q)) :
  forall (rows : list nat) (acc r : list Z),
    label_rows td cutoffs rows acc = Ok r ->
    List.length r = (List.length acc + List.length rows)%nat.
Proof.
  induction rows as [| i rows IH]; intros acc r E; simpl in E.
  - inversion E; subst. simpl. lia.
  - apply bind_ok in E. destruct E as (l & _ & E).
    apply IH in E. rewrite E, length_app. simpl. lia.
Qed.

Lemma add_labels_length (self self' : TrainClassifier) (td : DataFrame)
    (cutoffs : dict (option Q)) (l : list Z) :
  add_labels self td cutoffs = Ok (l, self') -> List.length l = index_len td.
Proof.
  unfold add_labels. intros E.
  apply bind_ok in E. destruct E as (l' & E' & E). inversion E; subst.
  apply label_rows_length in E'. rewrite E', length_seq. reflexivity.
Qed.

Lemma df_pop_index (df df' : DataFrame) (key : string) (c : Series) :
  df_pop df key = Ok (c, df') -> index_len df' = index_len df.
Proof.
  unfold df_pop. destruct (dpop (columns df) key) as [[s cols] |]; [| discriminate].
  intros E. inversion E. reflexivity.
Qed.

Section SearchKeeps.
Context {SkModel V : Type} `{FloatOps V} `{Services SkModel V}.

#[local] Abbreviation Frame := (@Frame SkModel V).
#[local] Abbreviation Sweep := (@Sweep SkModel V).
#[local] Abbreviation Trial := (@Trial SkModel V).
#[local] Abbreviation config := (@config SkModel V).

(** X6.  The search never touches the discard estimate or the dev labels
    of [self], and never changes the number of rows of the training table
    or of the dev table: it only removes columns and stores labels. *)
Theorem search_keeps_rows (criterion : string) (self0 : TrainClassifier) (c : config) :
  reach criterion self0 c ->
  discard_estimate (self (frame_of c)) = discard_estimate self0 /\
  dev_labels (self (frame_of c)) = dev_labels self0 /\
  index_len (df_training_data (self (frame_of c))) = index_len (df_training_data self0) /\
  option_map index_len (dev_data (self (frame_of c)))
    = option_map index_len (dev_data self0).
Proof.
  induction 1 as [| key todo fr sw R IH E | key todo j sw sw' R IH L E
                  | key todo sw fr R IH E]; simpl in *.
  - auto.
  - apply sweep_init_inv in E. destruct E as (d & _ & E). subst sw. exact IH.
  - apply trial_inv in E.
    destruct E as (dev & d & zero & tr & dv & cc & self' & lv & LR & cv &
                   _ & _ & Br & _ & _ & E).
    cbv zeta in E. subst sw'. simpl.
    destruct Br as [(_ & _ & _ & _ & _ & _ & Es) | (_ & _ & _ & _ & _ & Ea)].
    + subst self'. exact IH.
    + apply add_labels_self in Ea. subst self'. exact IH.
  - apply sweep_end_inv in E. destruct E as (self' & cutoffs' & Br & E).
    subst fr. simpl.
    destruct Br as [(_ & c1 & tr & dev & c2 & dv & c3 & P1 & Edev & P2 & _ & Es)
                   | (_ & Es & _)]; subst self'; [| exact IH].
    destruct IH as (I1 & I2 & I3 & I4). simpl.
    apply df_pop_index in P1. apply df_pop_index in P2.
    rewrite Edev in I4. simpl in I4.
    repeat split; [assumption | assumption | congruence | simpl; congruence].
Qed.






(** X9.  A feature column disappears from the live training table only
    through a winning drop-the-feature trial: for every column of the
    original table that the live table no longer has, the history holds a
    trial of that feature that ran with discard 0 and won. *)
Theorem removed_feature_won_zero_trial (criterion : string) (self0 : TrainClassifier)
    (c : config) :
  reach criterion self0 c ->
  (forall k, In k (df_keys (df_training_data self0)) ->
     ~ In k (df_keys (df_training_data (self (frame_of c)))) ->
     exists t, In t (history (frame_of c)) /\
               t_key t = k /\ t_zero t = true /\ t_win t = true) /\
  match c with
  | AtOuter _ _ => True
  | AtInner key _ _ sw =>
      remove_column sw = true ->
      exists t, In t (history (frame sw)) /\
                t_key t = key /\ t_zero t = true /\ t_win t = true
  end.
Proof.
  induction 1 as [| key todo fr sw R IH E | key todo j sw sw' R IH L E
                  | key todo sw fr R IH E]; simpl in *.
  - split; [intros k I N; contradiction | exact I].
  - apply sweep_init_inv in E. destruct E as (d & _ & E). subst sw. simpl.
    split; [exact (proj1 IH) | discriminate].
  - destruct IH as [Ik Ir].
    pose proof (trial_tables _ _ _ _ E) as (T & _).
    apply trial_inv in E.
    destruct E as (dev & d & zero & tr & dv & cc & self' & lv & LR & cv &
                   _ & _ & _ & _ & _ & E).
    cbv zeta in E. subst sw'. simpl in *. split.
    + intros k I N. rewrite T in N. destruct (Ik k I N) as (t & It & P).
      exists t. split; [now right | exact P].
    + destruct (wins criterion (best_model (frame sw)) cv) eqn:W;
        destruct zero; simpl; intros Rc;
        try (destruct (Ir Rc) as (t & It & P); exists t; split; [now right | exact P]).
      eexists. split; [left; reflexivity |]. simpl. auto.
  - destruct IH as [Ik Ir].
    apply sweep_end_inv in E. destruct E as (self' & cutoffs' & Br & E).
    subst fr. simpl. split; [| exact I].
    destruct Br as [(Rc & c1 & tr & dev & c2 & dv & c3 & P1 & _ & _ & _ & Es)
                   | (_ & Es & _)]; subst self'; [| exact Ik].
    simpl. intros k I N. apply df_keys_pop in P1. rewrite P1 in N.
    destruct (string_dec k key) as [Ek | Nk]; [subst k; now apply Ir |].
    apply Ik; [exact I |]. intros I'. apply N. now apply remove_key_keeps.
Qed.
End SearchKeeps.

Lemma search_keeps_rows_witness :
  reach "roc_auc" self2 (AtOuter ["B"] (after_sweep self2 "A")) /\
  discard_estimate (self (frame_of (AtOuter ["B"] (after_sweep self2 "A"))))
    = discard_estimate self2 /\
  dev_labels (self (frame_of (AtOuter ["B"] (after_sweep self2 "A")))) = dev_labels self2 /\
  index_len (df_training_data (self (frame_of (AtOuter ["B"] (after_sweep self2 "A")))))
    = index_len (df_training_data self2) /\
  option_map index_len (dev_data (self (frame_of (AtOuter ["B"] (after_sweep self2 "A")))))
    = option_map index_len (dev_data self2).
Proof.
  assert (R : reach "roc_auc" self2 (AtOuter ["B"] (after_sweep self2 "A"))).
  { apply (reach_after_first_sweep "roc_auc" self2 "A" ["B"]);
      [reflexivity | vm_compute; reflexivity]. }
  split; [exact R |].
  exact (search_keeps_rows "roc_auc" self2 (AtOuter ["B"] (after_sweep self2 "A")) R).
Defined.



Lemma removed_feature_won_zero_trial_witness :
  reach "roc_auc" self2 (AtOuter ["B"] (after_sweep self2 "A")) /\
  forall k, In k (df_keys (df_training_data self2)) ->
    ~ In k (df_keys (df_training_data (self (frame_of (AtOuter ["B"] (after_sweep self2 "A")))))) ->
    exists t, In t (history (frame_of (AtOuter ["B"] (after_sweep self2 "A")))) /\
              t_key t = k /\ t_zero t = true /\ t_win t = true.
Proof.
  assert (R : reach "roc_auc" self2 (AtOuter ["B"] (after_sweep self2 "A"))).
  { apply (reach_after_first_sweep "roc_auc" self2 "A" ["B"]);
      [reflexivity | vm_compute; reflexivity]. }
  split; [exact R |].
  exact (proj1 (removed_feature_won_zero_trial "roc_auc" self2
                  (AtOuter ["B"] (after_sweep self2 "A")) R)).
Defined.

(** ** The discard schedule of a sweep *)

Section Schedule.
Context {SkModel V : Type} `{FloatOps V} `{Services SkModel V}.

#[local] Abbreviation Sweep := (@Sweep SkModel V).
#[local] Abbreviation config := (@config SkModel V).

Lemma schedule_reach (criterion : string) (self0 : TrainClassifier) (c : config) :
  reach criterion self0 c ->
  match c with
  | AtOuter todo fr =>
      NoDup todo /\
      (forall k, In k todo -> dget (discards fr) k = Some (discard_estimate self0))
  | AtInner key todo j sw =>
      NoDup (key :: todo) /\
      (forall k, In k todo -> dget (discards (frame sw)) k = Some (discard_estimate self0)) /\
      (discard sw == discard_estimate self0 - steps j)%Q /\
      dget (discards (frame sw)) key
        = Some (match j with
                | O => discard_estimate self0
                | S _ => round2 (discard sw)
                end)
  end.
Proof.
  induction 1 as [| key todo fr sw R IH E | key todo j sw sw' R IH L E
                  | key todo sw fr R IH E]; simpl.
  - split; [apply nodup_fromkeys |].
    intros k I. apply in_keys_dget in I. destruct I as (v & Ev).
    rewrite Ev. f_equal. apply dget_in in Ev. now apply in_fromkeys in Ev.
  - destruct IH as (ND & De).
    apply sweep_init_inv in E. destruct E as (d & Ed & E). subst sw. simpl.
    rewrite (De key (or_introl eq_refl)) in Ed. inversion Ed; subst d.
    split; [exact ND |].
    split; [intros k I; apply De; now right |].
    split; [rewrite steps_0; Lqa.lra |].
    apply De. now left.
  - destruct IH as (ND & De & Dj & _).
    apply trial_tables in E. destruct E as (_ & _ & _ & d & _ & Ds & Dd).
    rewrite Ds, Dd.
    split; [exact ND |].
    split.
    { intros k I. rewrite dget_dset_neq; [now apply De |].
      intros Ek. subst k. inversion ND; contradiction. }
    split; [rewrite steps_S, Dj; Lqa.lra | apply dget_dset_eq].
  - destruct IH as (ND & De & _).
    apply sweep_end_inv in E. destruct E as (self' & cutoffs' & _ & E).
    subst fr. simpl.
    split; [now inversion ND |].
    intros k I. rewrite dget_dset_neq; [now apply De |].
    intros Ek. subst k. inversion ND; contradiction.
Qed.

(** A whole number of hundredths stays one when hundredths are taken off. *)
Lemma round2_minus_steps (e : Q) (j : nat) :
  (round2 e == e)%Q -> (round2 (e - steps j) == e - steps j)%Q.
Proof.
  intros Ee.
  assert (M : forall z : Z, (Qmake z 100 == inject_Z z * (1 # 100))%Q).
  { intros z. unfold Qeq, Qmult, inject_Z. simpl. lia. }
  unfold round2 in Ee. rewrite M in Ee.
  remember (round_half_even (e * 100)) as z eqn:Ez. clear Ez.
  assert (P : ((e - steps j) * 100 == inject_Z (z - Z.of_nat j))%Q).
  { unfold steps, Z.sub. rewrite inject_Z_plus, inject_Z_opp.
    revert Ee. generalize (inject_Z z), (inject_Z (Z.of_nat j)).
    intros b a Eb. Lqa.lra. }
  unfold round2. rewrite (round_half_even_inject _ _ P), M.
  unfold steps, Z.sub. rewrite inject_Z_plus, inject_Z_opp.
  clear P. revert Ee. generalize (inject_Z z), (inject_Z (Z.of_nat j)).
  intros b a Eb. Lqa.lra.
Qed.

(** X10.  For a default estimate with at most two decimals: in the sweep
    of a feature, after [j] trials the discard-set holds for that feature
    the default minus [j] hundredths, and the features not yet swept still
    sit at the default.  With the default estimate 0.1 the
    drop-the-feature trial is therefore exactly the eleventh trial of
    every sweep. *)
Theorem sweep_schedule (criterion : string) (self0 : TrainClassifier)
    (key : string) (todo : list string) (j : nat) (sw : Sweep) :
  (round2 (discard_estimate self0) == discard_estimate self0)%Q ->
  reach criterion self0 (AtInner key todo j sw) ->
  (exists d, dget (discards (frame sw)) key = Some d /\
             (d == discard_estimate self0 - steps j)%Q) /\
  (forall k, In k todo -> dget (discards (frame sw)) k = Some (discard_estimate self0)) /\
  ((discard_estimate self0 == 1 # 10)%Q -> (j <= 10)%nat ->
   forall d, dget (discards (frame sw)) key = Some d ->
     (Qeq_bool d 0 = true <-> j = 10%nat)).
Proof.
  intros Ee R. pose proof (schedule_reach _ _ _ R) as (ND & De & Dj & Dk). simpl in *.
  assert (Dk' : dget (discards (frame sw)) key
                = Some (match j with
                        | O => discard_estimate self0
                        | S _ => round2 (discard_estimate self0 - steps j)
                        end)).
  { rewrite Dk. destruct j; [reflexivity |]. f_equal. now apply round2_comp. }
  split.
  { eexists. split; [exact Dk' |].
    destruct j; [rewrite steps_0; Lqa.lra | now apply round2_minus_steps]. }
  split; [exact De |].
  intros E10 Lj d Ed. rewrite Dk' in Ed. inversion Ed as [Ed']. clear Ed Ed'.
  destruct j as [| j].
  - split; [| discriminate].
    intros Z. apply Qeq_bool_iff in Z. rewrite E10 in Z. discriminate Z.
  - assert (Er : round2 (discard_estimate self0 - steps (S j))
                 = round2 ((1 # 10) - steps (S j))).
    { apply round2_comp. now rewrite E10. }
    rewrite Er.
    do 10 (destruct j as [| j]; [vm_compute; split; [try discriminate | try discriminate]; try reflexivity |]).
    lia.
Qed.
End Schedule.

Lemma sweep_schedule_witness :
  (round2 (discard_estimate self2) == discard_estimate self2)%Q /\
  reach "roc_auc" self2 (AtInner "A" ["B"] 10 (sweep_after self2 "A" 10)) /\
  (exists d, dget (discards (frame (sweep_after self2 "A" 10))) "A" = Some d /\
             (d == discard_estimate self2 - steps 10)%Q) /\
  (forall k, In k ["B"] ->
     dget (discards (frame (sweep_after self2 "A" 10))) k = Some (discard_estimate self2)) /\
  ((discard_estimate self2 == 1 # 10)%Q -> (10 <= 10)%nat ->
   forall d, dget (discards (frame (sweep_after self2 "A" 10))) "A" = Some d ->
     (Qeq_bool d 0 = true <-> 10%nat = 10%nat)).
Proof.
  assert (Ee : (round2 (discard_estimate self2) == discard_estimate self2)%Q)
    by reflexivity.
  assert (R : reach "roc_auc" self2 (AtInner "A" ["B"] 10 (sweep_after self2 "A" 10))).
  { eapply reach_trials_from_start;
      [reflexivity | reflexivity | vm_compute; reflexivity | lia]. }
  split; [exact Ee |]. split; [exact R |].
  exact (sweep_schedule "roc_auc" self2 "A" ["B"] 10 (sweep_after self2 "A" 10) Ee R).
Defined.

(** ** Cutoffs and labels together *)

Section CutoffsThenLabels.
Context {SkModel V : Type} `{Services SkModel V}.

Lemma set_cutoffs_loop_ok (td : DataFrame) (discards : dict Q) :
  forall (keys : list string) (c c' : dict (option Q)),
    set_cutoffs_loop td discards keys c = Ok c' ->
    (forall key, In key keys -> In key (dkeys c)) ->
    dkeys c' = dkeys c /\
    forall key,
      In key keys \/
      (exists col v, dget (columns td) key = Some col /\ dget c key = Some (Some v)) ->
      exists col v, dget (columns td) key = Some col /\ dget c' key = Some (Some v).
Proof.
  induction keys as [| k keys IH]; intros c c' E Hk; simpl in E.
  - inversion E; subst. split; [reflexivity |]. intros key [[] | G]. exact G.
  - apply bind_ok in E. destruct E as (col & Ec & E). apply bound_ok in Ec.
    apply bind_ok in E. destruct E as (d & Ed & E).
    apply bind_ok in E. destruct E as (v & Ev & E).
    assert (Ik : In k (dkeys c)) by (apply Hk; now left).
    destruct (IH _ _ E) as [K G].
    { intros key I. rewrite dkeys_dset_in by assumption. apply Hk. now right. }
    split; [rewrite K; now apply dkeys_dset_in |].
    intros key D. apply G.
    destruct (string_dec key k) as [Ek | Nk].
    + subst key. right. exists col, v. split; [exact Ec | apply dget_dset_eq].
    + destruct D as [[Ek | I] | (col' & v' & Ec' & Ev')]; [congruence | now left |].
      right. exists col', v'. split; [exact Ec' |]. now rewrite dget_dset_neq.
Qed.

Lemma add_labels_total (self : TrainClassifier) (td : DataFrame)
    (cutoffs : dict (option Q)) :
  (forall key, In key (dkeys cutoffs) ->
     exists col c, dget (columns td) key = Some col /\
                   List.length col = index_len td /\
                   dget cutoffs key = Some (Some c)) ->
  exists labels self', add_labels self td cutoffs = Ok (labels, self').
Proof.
  intros Hwf.
  destruct (label_rows_spec td cutoffs (seq 0 (index_len td)) []) as (ls & E & _).
  { intros i I. apply in_seq in I.
    destruct (row_gates_spec td cutoffs i (dkeys cutoffs) 1) as (r & Er & _); [| eauto].
    intros key Ik. destruct (Hwf key Ik) as (col & c & Ec & Len & Ek).
    destruct (nth_error col i) as [x |] eqn:Ex.
    - exists col, x, c. auto.
    - apply nth_error_None in Ex. lia. }
  simpl in E. unfold add_labels. rewrite E. simpl. eauto.
Qed.

(** X11.  When [set_cutoffs] returns, the cutoff-set has the keys it had
    and no entry is null any more; on a table whose columns are as long
    as its index, [add_labels] with the same table and these cutoffs then
    always returns, with one label per row: the search can never hit the
    [None] cutoffs it starts from. *)
Theorem set_cutoffs_then_add_labels (self : TrainClassifier) (td : DataFrame)
    (discards : dict Q) (cutoffs cc : dict (option Q)) :
  set_cutoffs td discards cutoffs = Ok cc ->
  dkeys cc = dkeys cutoffs /\
  (forall key, In key (dkeys cc) ->
     exists col c, dget (columns td) key = Some col /\ dget cc key = Some (Some c)) /\
  (Forall (fun kc => List.length (snd kc) = index_len td) (columns td) ->
   exists labels self',
     add_labels self td cc = Ok (labels, self') /\
     List.length labels = index_len td).
Proof.
  unfold set_cutoffs. intros E.
  destruct (set_cutoffs_loop_ok td discards _ _ _ E) as [K G]; [auto |].
  assert (G' : forall key, In key (dkeys cc) ->
             exists col c, dget (columns td) key = Some col /\ dget cc key = Some (Some c)).
  { intros key I. apply G. left. now rewrite <- K. }
  split; [exact K |]. split; [exact G' |].
  intros F.
  destruct (add_labels_total self td cc) as (labels & self' & Ea).
  { intros key I. destruct (G' key I) as (col & c & Ec & Ek).
    exists col, c. split; [exact Ec |]. split; [| exact Ek].
    apply dget_in in Ec. rewrite Forall_forall in F. exact (F _ Ec). }
  exists labels, self'. split; [exact Ea |]. exact (add_labels_length _ _ _ _ _ Ea).
Qed.
End CutoffsThenLabels.

Lemma set_cutoffs_then_add_labels_witness :
  set_cutoffs train_ce [("A", 1 # 4); ("CrossEntropyFilter.0", 1 # 4)]%Q
    [("A", None); ("CrossEntropyFilter.0", None)]
    = Ok [("A", Some (7 # 40)); ("CrossEntropyFilter.0", Some (23 # 4))]%Q /\
  Forall (fun kc => List.length (snd kc) = index_len train_ce) (columns train_ce) /\
  exists labels self',
    add_labels (self_of train_ce None None) train_ce
      [("A", Some (7 # 40)); ("CrossEntropyFilter.0", Some (23 # 4))]%Q
      = Ok (labels, self') /\
    List.length labels = index_len train_ce.
Proof.
  assert (E : set_cutoffs train_ce [("A", 1 # 4); ("CrossEntropyFilter.0", 1 # 4)]%Q
                [("A", None); ("CrossEntropyFilter.0", None)]
              = Ok [("A", Some (7 # 40)); ("CrossEntropyFilter.0", Some (23 # 4))]%Q)
    by reflexivity.
  assert (F : Forall (fun kc => List.length (snd kc) = index_len train_ce)
                     (columns train_ce)) by (repeat constructor).
  split; [exact E |]. split; [exact F |].
  exact (proj2 (proj2 (set_cutoffs_then_add_labels (self_of train_ce None None)
                         train_ce _ _ _ E)) F).
Defined.

(** ** Errors of [add_labels] *)

Lemma row_gates_null (td : DataFrame) (cutoffs : dict (option Q)) (i : nat) :
  forall (keys : list string) (label : Z),
    (forall key, In key keys ->
       exists col x oc, dget (columns td) key = Some col /\
                        nth_error col i = Some x /\
                        dget cutoffs key = Some oc) ->
    (exists key, In key keys /\ dget cutoffs key = Some None) ->
    row_gates td cutoffs i keys label = Err TypeError.
Proof.
  induction keys as [| k keys IH]; intros label Hk (key & Ik & En); simpl.
  - contradiction.
  - destruct (Hk k (or_introl eq_refl)) as (col & x & oc & Ec & Ex & Eo).
    unfold gate, df_getitem, series_getitem. rewrite Ec. simpl. rewrite Ex. simpl.
    rewrite Eo. simpl. destruct oc as [c |]; [| reflexivity]. simpl.
    assert (T : forall r, bind (Ok r) (fun l => row_gates td cutoffs i keys l)
                          = Err TypeError).
    { intros r. simpl. apply IH; [intros k' I'; apply Hk; now right |].
      exists key. split; [| exact En].
      destruct Ik as [Ek | Ik]; [subst key; congruence | exact Ik]. }
    destruct (high_reject k); [destruct (Qltb c x) | destruct (Qltb x c)]; apply T.
Qed.

Lemma row_gates_missing (td : DataFrame) (cutoffs : dict (option Q)) (i : nat) :
  forall (keys : list string) (label : Z),
    (forall key, In key keys -> exists c, dget cutoffs key = Some (Some c)) ->
    (exists key, In key keys /\ dget (columns td) key = None) ->
    row_gates td cutoffs i keys label = Err KeyError.
Proof.
  induction keys as [| k keys IH]; intros label Hk (key & Ik & En); simpl.
  - contradiction.
  - unfold gate, df_getitem, series_getitem.
    destruct (dget (columns td) k) as [col |] eqn:Ec; [| reflexivity]. simpl.
    destruct (nth_error col i) as [x |]; [| reflexivity]. simpl.
    destruct (Hk k (or_introl eq_refl)) as (c & Eo). rewrite Eo. simpl.
    assert (T : forall r, bind (Ok r) (fun l => row_gates td cutoffs i keys l)
                          = Err KeyError).
    { intros r. simpl. apply IH; [intros k' I'; apply Hk; now right |].
      exists key. split; [| exact En].
      destruct Ik as [Ek | Ik]; [subst key; congruence | exact Ik]. }
    destruct (high_reject k); [destruct (Qltb c x) | destruct (Qltb x c)]; apply T.
Qed.

Lemma add_labels_first_row (self : TrainClassifier) (td : DataFrame)
    (cutoffs : dict (option Q)) (e : error) :
  (0 < index_len td)%nat ->
  row_gates td cutoffs 0 (dkeys cutoffs) 1 = Err e ->
  add_labels self td cutoffs = Err e.
Proof.
  intros P E. unfold add_labels.
  destruct (index_len td) as [| n]; [lia |].
  simpl. rewrite E. reflexivity.
Qed.

(** X12.  On a table with at least one row whose columns cover the keys of
    the cutoff-set, [add_labels] raises [TypeError] as soon as one cutoff
    is still null (as every cutoff is before [set_cutoffs] has run). *)
Theorem add_labels_null_cutoff (self : TrainClassifier) (td : DataFrame)
    (cutoffs : dict (option Q)) (key : string) :
  (0 < index_len td)%nat ->
  (forall k, In k (dkeys cutoffs) ->
     exists col, dget (columns td) k = Some col /\ List.length col = index_len td) ->
  dget cutoffs key = Some None ->
  add_labels self td cutoffs = Err TypeError.
Proof.
  intros P Hc En. apply add_labels_first_row; [exact P |].
  apply row_gates_null.
  - intros k I. destruct (Hc k I) as (col & Ec & Len).
    destruct (in_keys_dget _ _ I) as (oc & Eo).
    destruct (nth_error col 0) as [x |] eqn:Ex.
    + exists col, x, oc. auto.
    + apply nth_error_None in Ex. lia.
  - exists key. split; [now apply dget_in_keys in En | exact En].
Qed.

(** X13.  With numeric cutoffs only, [add_labels] on a table with at
    least one row raises [KeyError] when some key of the cutoff-set is not
    a column of the table. *)
Theorem add_labels_missing_column (self : TrainClassifier) (td : DataFrame)
    (cutoffs : dict (option Q)) (key : string) :
  (0 < index_len td)%nat ->
  (forall k, In k (dkeys cutoffs) -> exists c, dget cutoffs k = Some (Some c)) ->
  In key (dkeys cutoffs) ->
  dget (columns td) key = None ->
  add_labels self td cutoffs = Err KeyError.
Proof.
  intros P Hc Ik En. apply add_labels_first_row; [exact P |].
  apply row_gates_missing; [exact Hc | eauto].
Qed.

Lemma add_labels_null_cutoff_witness :
  (0 < index_len train1)%nat /\
  dget [("A", None)] "A" = Some (@None Q) /\
  add_labels (self_of train1 None None) train1 [("A", None)] = Err TypeError.
Proof.
  assert (P : (0 < index_len train1)%nat) by (simpl; lia).
  split; [exact P |]. split; [reflexivity |].
  apply (add_labels_null_cutoff (self_of train1 None None) train1 [("A", None)] "A" P);
    [| reflexivity].
  intros k [E | []]. subst k.
  exists [1 # 10; 2 # 10; 3 # 10; 4 # 10]%Q. split; reflexivity.
Defined.

Lemma add_labels_missing_column_witness :
  (0 < index_len train1)%nat /\
  dget (columns train1) "B" = None /\
  add_labels (self_of train1 None None) train1 [("A", Some (1 # 4)); ("B", Some 1)]%Q
    = Err KeyError.
Proof.
  assert (P : (0 < index_len train1)%nat) by (simpl; lia).
  split; [exact P |]. split; [reflexivity |].
  apply (add_labels_missing_column (self_of train1 None None) train1
           [("A", Some (1 # 4)); ("B", Some 1)]%Q "B" P);
    [| simpl; auto | reflexivity].
  intros k [E | [E | []]]; subst k; eexists; reflexivity.
Defined.

(** ** The logarithms of the criteria *)

Lemma py_sum_squares_nonneg (l : list Z) : 0 <= py_sum (map (fun r => r ^ 2) l).
Proof.
  unfold py_sum. induction l as [| x l IH]; cbn [map fold_left]; [lia |].
  rewrite fold_left_add_acc.
  assert (P : 0 <= x ^ 2) by (apply Z.pow_even_nonneg; exists 1; reflexivity).
  revert P IH. generalize (x ^ 2) as s.
  generalize (fold_left Z.add (map (fun r => r ^ 2) l) 0) as t.
  intros t s P IH. lia.
Qed.

Section RealLogarithms.
Context {SkModel : Type} `{Services SkModel R}.

(** X14.  Whenever [get_sse] returns, its value is at least 0.01, so the
    logarithm of the SSE is always defined: [get_aic] returns
    2k - 2 ln(SSE), and [get_bic] returns ln(n) k - 2 ln(SSE) on a
    snapshot with rows and raises [ValueError] (the logarithm of 0) on a
    snapshot without any row. *)
Theorem sse_positive_logs_defined (self : TrainClassifier) (model : Classifier SkModel)
    (td : DataFrame) (labels : list Z) (sse : R) :
  get_sse self model td labels = Ok sse ->
  (1 / 100 <= sse)%R /\
  get_aic self model td labels
    = Ok (2 * INR (List.length (columns td)) - 2 * ln sse)%R /\
  ((0 < index_len td)%nat ->
   get_bic self model td labels
     = Ok (ln (INR (index_len td)) * INR (List.length (columns td)) - 2 * ln sse)%R) /\
  (index_len td = 0%nat -> get_bic self model td labels = Err ValueError).
Proof.
  intros Es.
  assert (Ps : (1 / 100 <= sse)%R).
  { unfold get_sse in Es.
    apply bind_ok in Es. destruct Es as (y_hat & _ & Es).
    apply bind_ok in Es. destruct Es as (lt & _ & Es).
    apply bind_ok in Es. destruct Es as (resid & _ & Es).
    injection Es as Es. subst sse. cbn [Vadd V_of_Z V_of_Q R_ops].
    pose proof (py_sum_squares_nonneg resid) as P. apply IZR_le in P.
    assert (Eq : Q2R (1 # 100) = (1 / 100)%R) by (unfold Q2R; simpl; Lra.lra).
    rewrite Eq.
    match goal with
    | |- (_ <= ?t + _)%R =>
        assert (P' : (0 <= t)%R) by exact P; revert P'; generalize t
    end.
    intros t P'. Lra.lra. }
  assert (P0 : (0 < sse)%R) by Lra.lra.
  split; [exact Ps |]. split; [| split].
  - unfold get_aic. rewrite Es. cbn [bind]. rewrite (math_log_pos _ P0).
    cbn [bind Vsub Vmul V_of_Z R_ops].
    unfold shape1. rewrite mult_IZR, <- INR_IZR_INZ. reflexivity.
  - intros Pn. unfold get_bic. rewrite Es. cbn [bind].
    assert (Pn' : (0 < V_of_Z (shape0 td))%R).
    { unfold shape0. cbn [V_of_Z R_ops]. rewrite <- INR_IZR_INZ. now apply lt_0_INR. }
    rewrite (math_log_pos _ Pn'). cbn [bind]. rewrite (math_log_pos _ P0).
    cbn [bind Vsub Vmul V_of_Z R_ops].
    unfold shape0, shape1. rewrite <- !INR_IZR_INZ. reflexivity.
  - intros Zn. unfold get_bic. rewrite Es. cbn [bind].
    unfold shape0. rewrite Zn. unfold math_log. cbn [Vltb V_of_Z R_ops].
    simpl Z.of_nat. destruct (Rlt_dec 0 0) as [L | _]; [Lra.lra | reflexivity].
Qed.
End RealLogarithms.

Lemma sse_positive_logs_defined_witness :
  labels_train (set_labels_train (self_of train1 (Some dev1) None) [0; 1; 1; 1])
    = Some [0; 1; 1; 1] /\
  let self := set_labels_train (self_of train1 (Some dev1) None) [0; 1; 1; 1] in
  let model := {| classname := "LogisticRegression"; classifier := ["A"];
                  features := ["A"] |} in
  get_sse (H0 := real_services) self model train1 [] = Ok (IZR 3 + 1 / 100)%R /\
  (1 / 100 <= IZR 3 + 1 / 100)%R /\
  get_aic (H0 := real_services) self model train1 []
    = Ok (2 * INR (List.length (columns train1)) - 2 * ln (IZR 3 + 1 / 100))%R.
Proof.
  split; [reflexivity |].
  intros self model.
  assert (Es : get_sse (H0 := real_services) self model train1 []
               = Ok (IZR 3 + 1 / 100)%R).
  { unfold get_sse. simpl. apply f_equal. apply f_equal2; [reflexivity | Lra.lra]. }
  split; [exact Es |].
  destruct (sse_positive_logs_defined (H := real_services) self model train1 []
              (IZR 3 + 1 / 100)%R Es) as (Ps & Ea & _).
  split; [exact Ps | exact Ea].
Defined.

(** ** [Classifier.weights] *)

Section WeightsFacts.
Context {SkModel V : Type} `{Services SkModel V}.
Variable intercept0 : SkModel -> Q.
Variable coef0 : SkModel -> list Q.

(** X15.  The classifier [train_logreg] returns is one whose weights can
    be listed: when the estimator has one coefficient per training
    column, [weights] yields the intercept under the name '(intercept)'
    first and then every column name, in the order of the table, with its
    coefficient.  A classifier of any other class yields nothing. *)
Theorem weights_of_trained (td : DataFrame) (labels : list Z)
    (c : Classifier SkModel) :
  train_logreg td labels = Ok c ->
  List.length (coef0 (classifier c)) = List.length (columns td) ->
  map fst (weights intercept0 coef0 c) = "(intercept)" :: df_keys td /\
  map snd (weights intercept0 coef0 c)
    = intercept0 (classifier c) :: coef0 (classifier c) /\
  forall c' : Classifier SkModel,
    classname c' <> "LogisticRegression" -> weights intercept0 coef0 c' = [].
Proof.
  intros E Len. unfold train_logreg in E.
  apply bind_ok in E. destruct E as (m & _ & E). inversion E; subst c. clear E.
  simpl in Len. unfold weights. simpl.
  assert (Lk : List.length (df_keys td) = List.length (coef0 m)).
  { unfold df_keys, dkeys. rewrite length_map. now symmetry. }
  split; [| split].
  - f_equal. clear Len. revert Lk. generalize (coef0 m) as cs.
    induction (df_keys td) as [| k ks IH]; intros [| x cs] L; simpl in *;
      try discriminate; [reflexivity |].
    f_equal. apply IH. now inversion L.
  - f_equal. clear Len. revert Lk. generalize (coef0 m) as cs.
    induction (df_keys td) as [| k ks IH]; intros [| x cs] L; simpl in *;
      try discriminate; [reflexivity |].
    f_equal. apply IH. now inversion L.
  - intros c' N. apply String.eqb_neq in N. now rewrite N.
Qed.
End WeightsFacts.

Lemma weights_of_trained_witness :
  train_logreg train2 [0; 1; 1; 1]
    = Ok {| classname := "LogisticRegression"; classifier := ["A"; "B"];
            features := ["A"; "B"] |} /\
  map fst (weights sample_intercept sample_coef
             {| classname := "LogisticRegression"; classifier := ["A"; "B"];
                features := ["A"; "B"] |})
    = "(intercept)" :: df_keys train2 /\
  map snd (weights sample_intercept sample_coef
             {| classname := "LogisticRegression"; classifier := ["A"; "B"];
                features := ["A"; "B"] |})
    = [0; 1 # 2; 1 # 2]%Q.
Proof.
  assert (E : train_logreg train2 [0; 1; 1; 1]
              = Ok {| classname := "LogisticRegression"; classifier := ["A"; "B"];
                      features := ["A"; "B"] |}) by reflexivity.
  split; [exact E |].
  destruct (weights_of_trained sample_intercept sample_coef train2 [0; 1; 1; 1] _ E eq_refl)
    as (W1 & W2 & _).
  split; [exact W1 | exact W2].
Defined.
